(** * Inventory service (index.js): model and properties

    A shallow embedding of the Express inventory service: the JSON-backed
    repository ([loadInventory], [saveInventory]) and the route handlers
    that run a load / mutate / save cycle over it. *)

From Stdlib Require Import Ascii String ZArith Lia.
From stdpp Require Import base tactics option list strings pretty countable
  gmap.

Local Open Scope string_scope.
Local Open Scope list_scope.

(** ** JavaScript primitives used by the handlers *)

Module JS.

(** Strings are sequences of code units below 256. *)

(** [!!s] for a string: only the empty string is falsy. *)
Definition truthy_string (s : string) : bool :=
  negb (String.eqb s "").

(** [!!v] for a value that is a string, or [undefined] / [null]
    ([None]). *)
Definition truthy (v : option string) : bool :=
  match v with
  | Some s => truthy_string s
  | None => false
  end.

(** [a || b] where [a] is a string or [undefined] and [b] a string. *)
Definition or_else (a : option string) (b : string) : string :=
  match a with
  | Some s => if truthy_string s then s else b
  | None => b
  end.

(** White space and line terminators of [String.prototype.trim] in the
    modelled range: TAB, LF, VT, FF, CR, SP and NBSP. *)
Definition is_white_space (c : ascii) : bool :=
  let n := nat_of_ascii c in
  (Nat.leb 9 n && Nat.leb n 13) || Nat.eqb n 32 || Nat.eqb n 160.

Fixpoint trimStart (s : string) : string :=
  match s with
  | EmptyString => EmptyString
  | String c s' => if is_white_space c then trimStart s' else s
  end.

Fixpoint trimEnd (s : string) : string :=
  match s with
  | EmptyString => EmptyString
  | String c s' =>
      match trimEnd s' with
      | EmptyString => if is_white_space c then EmptyString
                       else String c EmptyString
      | t => String c t
      end
  end.

(** [s.trim()] *)
Definition trim (s : string) : string := trimEnd (trimStart s).

(** A property of a parsed JSON body: missing ([undefined]), [null], or
    a string (the type the API schema declares for every body field).
    The update handler stores any other non-null value (a number, a
    boolean, an array, an object) unchecked as well; such bodies are
    outside the model, and the properties of updates are stated for
    bodies of this type only. *)
Inductive Field : Type :=
| Absent
| Null
| Str (s : string).

(** [f ?? d]: the right operand is taken exactly for [undefined] and
    [null]. *)
Definition nullish (f : Field) (d : string) : string :=
  match f with
  | Str s => s
  | Absent | Null => d
  end.

(** [n.toString()] for an integral number (decimal, a leading minus sign
    for negatives). *)
Definition Number_toString (n : Z) : string := pretty n.

(** Interpolation of a possibly [undefined] string in a template
    literal. *)
Definition interpolate (v : option string) : string :=
  match v with
  | Some s => s
  | None => "undefined"
  end.

End JS.

(** ** Data model *)

(** One record of inventory.json.  [photoPath] is [null] ([None]) or the
    path of the uploaded file. *)
Record Item : Type := mkItem {
  id : string;
  name : string;
  description : string;
  photoPath : option string
}.

Abbreviation Inventory := (list Item) (only parsing).

Global Instance Item_eq_dec : EqDecision Item.
Proof. solve_decision. Defined.

(** ** Runtime environment

    [JSON.parse] and [JSON.stringify] belong to the language runtime and
    the cache directory comes from the command line; the service is
    parametrised by them. *)
Class Runtime : Type := {
  (** [JSON.parse(data)]; [None] when it throws a [SyntaxError].  The
      document is written by [saveInventory] only, so the parsed value is
      a collection of items; JSON of another shape is outside the model. *)
  JSON_parse : string -> option Inventory;
  (** [JSON.stringify(inventory, null, 2)] *)
  JSON_stringify : Inventory -> string;
  (** [path.resolve(process.cwd(), options.cache)] *)
  CACHE_DIR : string
}.

(** Parsing the text written for a collection gives the collection back. *)
Class RuntimeLaws (R : Runtime) : Prop := {
  JSON_parse_stringify : forall inv : Inventory,
    JSON_parse (JSON_stringify inv) = Some inv
}.

(** ** Requests and responses *)

(** What [buildPhotoUrl] reads from a request: [req.protocol] and
    [req.get("host")] (undefined without a Host header). *)
Record Request : Type := mkRequest {
  protocol : string;
  host : option string
}.

(** [req.file] as multer's [upload.single("photo")] leaves it: the upload
    is stored in the cache directory under a generated file name. *)
Record File : Type := mkFile {
  filename : string
}.

(** POST /register: multipart form fields and the optional upload. *)
Record RegisterRequest : Type := mkRegisterRequest {
  register_req : Request;
  inventory_name : option string;
  form_description : option string;
  register_file : option File
}.

(** PUT /inventory/:id: properties of the JSON body. *)
Record UpdateBody : Type := mkUpdateBody {
  body_name : JS.Field;
  body_description : JS.Field
}.

(** POST /search: form fields. *)
Record SearchRequest : Type := mkSearchRequest {
  search_req : Request;
  search_id : option string;
  has_photo : option string
}.

(** An entry of the list and item responses. *)
Record ItemView : Type := mkItemView {
  view_id : string;
  view_name : string;
  view_description : string;
  photoUrl : option string
}.

(** JSON bodies sent by the handlers. *)
Inductive Body : Type :=
| ErrorBody (error : string)
| CreatedBody (message : string) (item : ItemView)
| ListBody (items : list ItemView)
| ItemBody (item : ItemView)
| UpdatedBody (message : string) (id name description : string)
| PhotoUpdatedBody (message : string) (photoUrl : string)
| DeletedBody (message : string) (id : string)
| SearchBody (id name description : string) (hasPhoto : bool).

Record Response : Type := mkResponse {
  status : Z;
  body : Body
}.

(** ** Repository and handlers *)

(** The backing document INVENTORY_FILE as [fs.readFile] finds it. *)
Inductive Document : Type :=
| Missing
| Unreadable
| Text (data : string).

Inductive Error : Type :=
| ENOENT
| EACCES
| SyntaxError.

Inductive Outcome (A : Type) : Type :=
| Returned (a : A)
| Thrown (e : Error).
Arguments Returned {A} a.
Arguments Thrown {A} e.

(** Computations of the service: they read and write the document and
    may throw. *)
Definition Async (A : Type) : Type := Document -> Outcome (A * Document).

Definition ret {A} (a : A) : Async A := fun d => Returned (a, d).

Definition bind {A B} (m : Async A) (f : A -> Async B) : Async B :=
  fun d =>
    match m d with
    | Returned (a, d') => f a d'
    | Thrown e => Thrown e
    end.

Definition try_catch {A} (m : Async A) (handler : Async A) : Async A :=
  fun d =>
    match m d with
    | Returned r => Returned r
    | Thrown _ => handler d
    end.

Notation "x <- m ;; k" := (bind m (fun x => k))
  (at level 100, m at next level, right associativity).
Notation "m ;;; k" := (bind m (fun _ => k))
  (at level 100, right associativity).

(** [fs.readFile(INVENTORY_FILE, "utf-8")] *)
Definition readFile : Async string :=
  fun d =>
    match d with
    | Text data => Returned (data, d)
    | Missing => Thrown ENOENT
    | Unreadable => Thrown EACCES
    end.

(** [fs.writeFile(INVENTORY_FILE, data, "utf-8")]; the write is taken to
    succeed. *)
Definition writeFile (data : string) : Async unit :=
  fun _ => Returned (tt, Text data).

Section Service.
Context {R : Runtime}.

Definition parse (data : string) : Async Inventory :=
  fun d =>
    match JSON_parse data with
    | Some inv => Returned (inv, d)
    | None => Thrown SyntaxError
    end.

Definition loadInventory : Async Inventory :=
  try_catch (data <- readFile ;; parse data) (ret []).

Definition saveInventory (inventory : Inventory) : Async unit :=
  writeFile (JSON_stringify inventory).

(** [req.file.path]: multer joins its destination and the file name. *)
Definition path (f : File) : string :=
  CACHE_DIR +:+ "/" +:+ filename f.

Definition buildPhotoUrl (req : Request) (id : string) : string :=
  protocol req +:+ "://" +:+ JS.interpolate (host req)
    +:+ "/inventory/" +:+ id +:+ "/photo".

(** [item.photoPath ? buildPhotoUrl(req, id) : null] *)
Definition photoUrl_of (req : Request) (item : Item) (id : string)
  : option string :=
  if JS.truthy (photoPath item) then Some (buildPhotoUrl req id) else None.

(** [inventory.find(x => x.id === wanted)]: position and value of the
    first match; the position stands for the reference into the array. *)
Definition find (wanted : string) (inventory : Inventory)
  : option (nat * Item) :=
  list_find (fun x => id x = wanted) inventory.

Definition not_found : Response := mkResponse 404 (ErrorBody "Not found").

(** POST /register; [now] is the reading of [Date.now()]. *)
Definition register (req : RegisterRequest) (now : Z) : Async Response :=
  match inventory_name req with
  | None => ret (mkResponse 400 (ErrorBody "inventory_name is required"))
  | Some inventory_name =>
      if negb (JS.truthy_string inventory_name)
         || String.eqb (JS.trim inventory_name) ""
      then ret (mkResponse 400 (ErrorBody "inventory_name is required"))
      else
        inventory <- loadInventory ;;
        let id := JS.Number_toString now in
        let item :=
          {| id := id;
             name := inventory_name;
             description := JS.or_else (form_description req) "";
             photoPath := path <$> register_file req |} in
        let inventory := (inventory ++ [item])%list in
        saveInventory inventory ;;;
        ret (mkResponse 201
               (CreatedBody "Created"
                  {| view_id := id;
                     view_name := name item;
                     view_description := description item;
                     photoUrl := photoUrl_of (register_req req) item id |}))
  end.

Definition view (req : Request) (item : Item) : ItemView :=
  {| view_id := id item;
     view_name := name item;
     view_description := description item;
     photoUrl := photoUrl_of req item (id item) |}.

(** GET /inventory *)
Definition list_inventory (req : Request) : Async Response :=
  inventory <- loadInventory ;;
  let result := view req <$> inventory in
  ret (mkResponse 200 (ListBody result)).

(** GET /inventory/:id *)
Definition get_item (req : Request) (wanted : string) : Async Response :=
  inventory <- loadInventory ;;
  match find wanted inventory with
  | None => ret not_found
  | Some (_, item) => ret (mkResponse 200 (ItemBody (view req item)))
  end.

(** PUT /inventory/:id; the found item is updated in place. *)
Definition update (wanted : string) (b : UpdateBody) : Async Response :=
  inventory <- loadInventory ;;
  match find wanted inventory with
  | None => ret not_found
  | Some (i, item) =>
      let item :=
        {| id := id item;
           name := JS.nullish (body_name b) (name item);
           description :=
             JS.nullish (body_description b) (description item);
           photoPath := photoPath item |} in
      let inventory := <[i := item]> inventory in
      saveInventory inventory ;;;
      ret (mkResponse 200
             (UpdatedBody "Updated" (id item) (name item)
                (description item)))
  end.

(** PUT /inventory/:id/photo *)
Definition update_photo (req : Request) (wanted : string)
    (file : option File) : Async Response :=
  inventory <- loadInventory ;;
  match find wanted inventory with
  | None => ret not_found
  | Some (i, item) =>
      match file with
      | None => ret (mkResponse 400 (ErrorBody "photo is required"))
      | Some file =>
          let item :=
            {| id := id item;
               name := name item;
               description := description item;
               photoPath := Some (path file) |} in
          let inventory := <[i := item]> inventory in
          saveInventory inventory ;;;
          ret (mkResponse 200
                 (PhotoUpdatedBody "Photo updated"
                    (buildPhotoUrl req (id item))))
      end
  end.

(** DELETE /inventory/:id; [findIndex] and [splice(index, 1)]. *)
Definition delete_item (wanted : string) : Async Response :=
  inventory <- loadInventory ;;
  match find wanted inventory with
  | None => ret not_found
  | Some (index, removed) =>
      let inventory := delete index inventory in
      saveInventory inventory ;;;
      ret (mkResponse 200 (DeletedBody "Deleted" (id removed)))
  end.

(** POST /search; [x.id === id] never holds for an undefined [id]. *)
Definition search (req : SearchRequest) : Async Response :=
  inventory <- loadInventory ;;
  match search_id req with
  | None => ret not_found
  | Some id_ =>
      match find id_ inventory with
      | None => ret not_found
      | Some (_, item) =>
          let desc := description item in
          let desc :=
            if JS.truthy (has_photo req) && JS.truthy (photoPath item)
            then desc +:+ String "010" "Photo: "
                      +:+ buildPhotoUrl (search_req req) id_
            else desc in
          ret (mkResponse 200
                 (SearchBody (id item) (name item) desc
                    (JS.truthy (photoPath item))))
      end
  end.

(** The calls a client can make, with what each reads from its
    environment.  GET /inventory/:id/photo only reads the collection and a
    photo file, and is left out. *)
Inductive Call : Type :=
| PostRegister (req : RegisterRequest) (now : Z)
| GetInventory (req : Request)
| GetItem (req : Request) (wanted : string)
| PutItem (wanted : string) (b : UpdateBody)
| PutPhoto (req : Request) (wanted : string) (file : option File)
| DeleteItem (wanted : string)
| PostSearch (req : SearchRequest).

Definition handle (c : Call) : Async Response :=
  match c with
  | PostRegister req now => register req now
  | GetInventory req => list_inventory req
  | GetItem req wanted => get_item req wanted
  | PutItem wanted b => update wanted b
  | PutPhoto req wanted file => update_photo req wanted file
  | DeleteItem wanted => delete_item wanted
  | PostSearch req => search req
  end.

(** Requests served one after the other. *)
Fixpoint serve (calls : list Call) : Async (list Response) :=
  match calls with
  | [] => ret []
  | c :: calls =>
      r <- handle c ;;
      rs <- serve calls ;;
      ret (r :: rs)
  end.

End Service.

(** ** A reference runtime

    A concrete [Runtime] on which the handlers can be evaluated: the
    collection is written as the binary numeral of its [Countable] code.
    It satisfies [RuntimeLaws]; the text format itself plays no role in
    the properties below. *)

Module Reference.

Definition Item_to_tuple (x : Item)
  : string * string * string * option string :=
  (id x, name x, description x, photoPath x).

Definition Item_of_tuple (t : string * string * string * option string)
  : Item :=
  let '(i, n, d, p) := t in mkItem i n d p.

Global Program Instance Item_countable : Countable Item :=
  inj_countable' Item_to_tuple Item_of_tuple _.
Next Obligation. by intros []. Qed.

Fixpoint binary (p : positive) : string :=
  match p with
  | xH => ""
  | xO p => String "0" (binary p)
  | xI p => String "1" (binary p)
  end.

Fixpoint of_binary (s : string) : option positive :=
  match s with
  | EmptyString => Some xH
  | String c s =>
      match of_binary s with
      | Some p =>
          if Ascii.eqb c "0" then Some (xO p)
          else if Ascii.eqb c "1" then Some (xI p)
          else None
      | None => None
      end
  end.

Definition stringify (inv : Inventory) : string := binary (encode inv).

Definition parse (data : string) : option Inventory :=
  match of_binary data with
  | Some p => decode p
  | None => None
  end.

Definition runtime : Runtime :=
  {| JSON_parse := parse;
     JSON_stringify := stringify;
     CACHE_DIR := "/srv/cache" |}.

End Reference.

(** Sample requests and the run they make on the reference runtime. *)
Module Sample.

Definition origin : Request :=
  {| protocol := "http"; host := Some "localhost:3000" |}.

Definition drill : RegisterRequest :=
  {| register_req := origin;
     inventory_name := Some "Drill";
     form_description := Some "cordless";
     register_file := None |}.

Definition saw : RegisterRequest :=
  {| register_req := origin;
     inventory_name := Some "Saw";
     form_description := None;
     register_file := Some {| filename := "3f2a9c41" |} |}.

Definition padded : RegisterRequest :=
  {| register_req := origin;
     inventory_name := Some " Drill ";
     form_description := None;
     register_file := None |}.

Definition spaces : RegisterRequest :=
  {| register_req := origin;
     inventory_name := Some "   ";
     form_description := Some "cordless";
     register_file := None |}.

Definition rename : UpdateBody :=
  {| body_name := JS.Str "Hammer drill"; body_description := JS.Null |}.

Definition null_name : UpdateBody :=
  {| body_name := JS.Null; body_description := JS.Str "" |}.

Definition empty_name : UpdateBody :=
  {| body_name := JS.Str ""; body_description := JS.Absent |}.

Definition calls : list Call :=
  [PostRegister drill 1700000000000;
   PostRegister saw 1700000000001;
   PostRegister spaces 1700000000001;
   PutItem "1700000000000" rename;
   PostRegister padded 1700000000002;
   DeleteItem "1700000000002"].

Definition run : Outcome (list Response * Document) :=
  serve (R := Reference.runtime) calls Missing.

Definition responses : list Response :=
  match run with
  | Returned (rs, _) => rs
  | Thrown _ => []
  end.

Definition document : Document :=
  match run with
  | Returned (_, d) => d
  | Thrown _ => Missing
  end.

Definition search_saw (flag : option string) : SearchRequest :=
  {| search_req := origin;
     search_id := Some "1700000000001";
     has_photo := flag |}.

Definition stored_drill : Item :=
  {| id := "1700000000000";
     name := "Hammer drill";
     description := "cordless";
     photoPath := None |}.

Definition stored_saw : Item :=
  {| id := "1700000000001";
     name := "Saw";
     description := "";
     photoPath := Some "/srv/cache/3f2a9c41" |}.

End Sample.

(** ** Specification vocabulary *)

(** A form field that is missing, empty, or made of white space only. *)
Definition blank (v : option string) : Prop :=
  match v with
  | None => True
  | Some s =>
      Forall (fun c => JS.is_white_space c = true) (list_ascii_of_string s)
  end.

Global Instance blank_dec (v : option string) : Decision (blank v).
Proof. destruct v; simpl; apply _. Defined.

(** The collection a document denotes: what a reader of the document
    obtains. *)
Definition stored {R : Runtime} (d : Document) : Inventory :=
  match d with
  | Text data =>
      match JSON_parse data with
      | Some inv => inv
      | None => []
      end
  | Missing | Unreadable => []
  end.

Section Vocabulary.
Context {R : Runtime}.

(** The item built by the register handler. *)
Definition new_item (req : RegisterRequest) (s : string) (now : Z) : Item :=
  {| id := JS.Number_toString now;
     name := s;
     description := JS.or_else (form_description req) "";
     photoPath := path <$> register_file req |}.

(** The item written back by the update handler. *)
Definition updated (b : UpdateBody) (item : Item) : Item :=
  {| id := id item;
     name := JS.nullish (body_name b) (name item);
     description := JS.nullish (body_description b) (description item);
     photoPath := photoPath item |}.

(** The item written back by the photo handler. *)
Definition with_photo (file : File) (item : Item) : Item :=
  {| id := id item;
     name := name item;
     description := description item;
     photoPath := Some (path file) |}.

(** The description returned by the search handler. *)
Definition search_description (req : SearchRequest) (wanted : string)
    (item : Item) : string :=
  if JS.truthy (has_photo req) && JS.truthy (photoPath item)
  then description item +:+ String "010" "Photo: "
         +:+ buildPhotoUrl (search_req req) wanted
  else description item.

(** What a call does to the persisted collection. *)
Definition effect (c : Call) (inv : Inventory) : Inventory :=
  match c with
  | PostRegister req now =>
      match inventory_name req with
      | Some s =>
          if decide (blank (Some s)) then inv
          else inv ++ [new_item req s now]
      | None => inv
      end
  | PutItem wanted b =>
      match find wanted inv with
      | Some (i, item) => <[i := updated b item]> inv
      | None => inv
      end
  | PutPhoto _ wanted (Some f) =>
      match find wanted inv with
      | Some (i, item) => <[i := with_photo f item]> inv
      | None => inv
      end
  | DeleteItem wanted =>
      match find wanted inv with
      | Some (index, _) => delete index inv
      | None => inv
      end
  | PutPhoto _ _ None | GetInventory _ | GetItem _ _ | PostSearch _ => inv
  end.

Definition effects (calls : list Call) (inv : Inventory) : Inventory :=
  foldl (fun inv c => effect c inv) inv calls.

(** The clock reading a call takes: one per accepted registration. *)
Definition clock_reading (c : Call) : option Z :=
  match c with
  | PostRegister req now =>
      if decide (blank (inventory_name req)) then None else Some now
  | _ => None
  end.

Definition clock_readings (calls : list Call) : list Z :=
  omap clock_reading calls.

(** The ids of a collection, in order. *)
Definition ids (inv : Inventory) : list string := id <$> inv.

(** An update whose body leaves the name absent or null, or gives a
    non-empty string for it. *)
Definition keeps_name (c : Call) : Prop :=
  match c with
  | PutItem _ b =>
      body_name b = JS.Absent \/ body_name b = JS.Null \/
      exists s, body_name b = JS.Str s /\ s <> ""
  | _ => True
  end.

(** A body property that the request provides: the key is present,
    whatever its value. *)
Definition provided (f : JS.Field) : Prop := f <> JS.Absent.

(** The item a request for [wanted] addresses: the first one, in
    collection order, with that id. *)
Definition first_match (wanted : string) (inv : Inventory) (i : nat)
    (item : Item) : Prop :=
  inv !! i = Some item /\ id item = wanted /\
  forall j y, inv !! j = Some y -> j < i -> id y <> wanted.

(** The note the search handler appends to a description. *)
Definition photo_note (req : Request) (wanted : string) : string :=
  String "010" "Photo: " +:+ buildPhotoUrl req wanted.

(** Documents the service can produce: some sequence of calls, served
    from a document denoting the empty collection, ends in [d]. *)
Definition reachable (d : Document) : Prop :=
  exists (d0 : Document) (calls : list Call) (rs : list Response),
    stored d0 = [] /\ serve calls d0 = Returned (rs, d).

End Vocabulary.

(** ** Start-up and photo retrieval *)

(** The photo files of the cache directory, by path, with their bytes. *)
Abbreviation PhotoFiles := (gmap string string) (only parsing).

(** What GET /inventory/:id/photo sends: a JSON response, or the bytes
    with the headers set for them. *)
Inductive PhotoResponse : Type :=
| JsonResponse (r : Response)
| ImageResponse (contentType disposition : string) (data : string).

(** [existsSync(INVENTORY_FILE)]: a document that cannot be read is
    there all the same. *)
Definition existsSync : Async bool :=
  fun d =>
    match d with
    | Missing => Returned (false, d)
    | Unreadable | Text _ => Returned (true, d)
    end.

(** [fs.readFile(item.photoPath)] *)
Definition readPhoto (files : PhotoFiles) (p : string) : Async string :=
  fun d =>
    match files !! p with
    | Some data => Returned (data, d)
    | None => Thrown ENOENT
    end.

Section Startup.
Context {R : Runtime}.

(** [ensureCacheDir]; creating the directory leaves the document alone. *)
Definition ensureCacheDir : Async unit :=
  present <- existsSync ;;
  if negb present then writeFile "[]" else ret tt.

Definition photo_not_found : Response :=
  mkResponse 404 (ErrorBody "Photo not found").

(** GET /inventory/:id/photo; the headers are set before the file is
    read. *)
Definition get_photo (files : PhotoFiles) (wanted : string)
  : Async PhotoResponse :=
  inventory <- loadInventory ;;
  match find wanted inventory with
  | None => ret (JsonResponse photo_not_found)
  | Some (_, item) =>
      match photoPath item with
      | None => ret (JsonResponse photo_not_found)
      | Some p =>
          if negb (JS.truthy_string p)
          then ret (JsonResponse photo_not_found)
          else
            data <- readPhoto files p ;;
            ret (ImageResponse "image/jpeg" "inline" data)
      end
  end.

(** A response that reports a failure. *)
Definition is_error (r : Response) : Prop :=
  status r = 400%Z \/ status r = 404%Z.

(** The photo URL of an entry: present exactly for an item with a photo. *)
Definition expected_photoUrl (req : Request) (item : Item) : option string :=
  match photoPath item with
  | Some _ => Some (buildPhotoUrl req (id item))
  | None => None
  end.

End Startup.

(** A reference runtime that also reads the text of a fresh document. *)
Module Fresh.

Definition parse (data : string) : option Inventory :=
  if String.eqb data "[]" then Some [] else Reference.parse data.

Definition runtime : Runtime :=
  {| JSON_parse := parse;
     JSON_stringify := Reference.stringify;
     CACHE_DIR := "/srv/cache" |}.

End Fresh.

(** ** The reference runtime is lawful *)

Lemma of_binary_binary (p : positive) :
  Reference.of_binary (Reference.binary p) = Some p.
Proof. induction p as [p IH|p IH|]; simpl; rewrite ?IH; reflexivity. Qed.

Lemma Reference_laws : RuntimeLaws Reference.runtime.
Proof.
  constructor. intros inv. simpl.
  unfold Reference.parse, Reference.stringify.
  rewrite of_binary_binary. apply decode_encode.
Qed.

(** ** Properties of the primitives *)

Lemma trimStart_empty (s : string) :
  JS.trimStart s = "" <->
  Forall (fun c => JS.is_white_space c = true) (list_ascii_of_string s).
Proof.
  induction s as [|c s IH]; simpl.
  - split; [constructor | reflexivity].
  - destruct (JS.is_white_space c) eqn:Hc.
    + rewrite IH. split.
      * intros H. constructor; assumption.
      * intros H. inversion H; assumption.
    + split; [discriminate |].
      intros H. inversion H; congruence.
Qed.

Lemma trimStart_head (s : string) (c : ascii) (t : string) :
  JS.trimStart s = String c t -> JS.is_white_space c = false.
Proof.
  induction s as [|a s IH]; simpl; [discriminate |].
  destruct (JS.is_white_space a) eqn:Ha; [exact IH |].
  intros [= -> _]. exact Ha.
Qed.

Lemma trimEnd_empty (s : string) :
  JS.trimEnd s = "" <->
  Forall (fun c => JS.is_white_space c = true) (list_ascii_of_string s).
Proof.
  induction s as [|c s IH]; simpl.
  - split; [constructor | reflexivity].
  - destruct (JS.trimEnd s) eqn:Hs.
    + destruct (JS.is_white_space c) eqn:Hc.
      * split; [| reflexivity].
        intros _. constructor; [assumption | apply IH; reflexivity].
      * split; [discriminate |].
        intros H. inversion H; congruence.
    + split; [discriminate |].
      intros H. inversion H as [|? ? _ Hall]; subst.
      apply IH in Hall. discriminate.
Qed.

Lemma trim_empty (s : string) :
  JS.trim s = "" <->
  Forall (fun c => JS.is_white_space c = true) (list_ascii_of_string s).
Proof.
  unfold JS.trim. split.
  - intros H. apply trimEnd_empty in H.
    destruct (JS.trimStart s) as [|c t] eqn:Hs.
    + apply trimStart_empty. exact Hs.
    + apply trimStart_head in Hs. inversion H; congruence.
  - intros H. apply trimStart_empty in H. rewrite H. reflexivity.
Qed.

(** The test of the register handler decides [blank]. *)
Lemma blank_test (s : string) :
  negb (JS.truthy_string s) || String.eqb (JS.trim s) "" = true <->
  blank (Some s).
Proof.
  unfold blank. rewrite <- trim_empty. split.
  - intros H. apply orb_true_iff in H as [H | H].
    + unfold JS.truthy_string in H. apply negb_true_iff in H.
      rewrite negb_false_iff in H. apply String.eqb_eq in H. subst.
      reflexivity.
    + apply String.eqb_eq. exact H.
  - intros H. apply orb_true_iff. right. apply String.eqb_eq. exact H.
Qed.

(** ** Properties of the repository and of single handlers *)

Section Handlers.
Context {R : Runtime}.

Lemma loadInventory_stored (d : Document) :
  loadInventory d = Returned (stored d, d).
Proof.
  unfold loadInventory, try_catch, bind, readFile, parse, ret, stored.
  destruct d as [| |data]; try reflexivity.
  destruct (JSON_parse data); reflexivity.
Qed.

Lemma saveInventory_written (inv : Inventory) (d : Document) :
  saveInventory inv d = Returned (tt, Text (JSON_stringify inv)).
Proof. reflexivity. Qed.

Lemma bind_load {A} (k : Inventory -> Async A) (d : Document) :
  bind loadInventory k d = k (stored d) d.
Proof. unfold bind. rewrite loadInventory_stored. reflexivity. Qed.

Lemma bind_save {A} (inv : Inventory) (k : unit -> Async A)
    (d : Document) :
  bind (saveInventory inv) k d = k tt (Text (JSON_stringify inv)).
Proof. reflexivity. Qed.

Lemma register_rejects (req : RegisterRequest) (now : Z) (d : Document) :
  blank (inventory_name req) ->
  register req now d =
    Returned (mkResponse 400 (ErrorBody "inventory_name is required"), d).
Proof.
  intros Hb. unfold register.
  destruct (inventory_name req) as [s|]; [| reflexivity].
  apply blank_test in Hb. rewrite Hb. reflexivity.
Qed.

Lemma register_accepts (req : RegisterRequest) (s : string) (now : Z)
    (d : Document) :
  inventory_name req = Some s ->
  ~ blank (Some s) ->
  register req now d =
    Returned
      (mkResponse 201
         (CreatedBody "Created"
            {| view_id := JS.Number_toString now;
               view_name := s;
               view_description := JS.or_else (form_description req) "";
               photoUrl :=
                 photoUrl_of (register_req req) (new_item req s now)
                   (JS.Number_toString now) |}),
       Text (JSON_stringify (stored d ++ [new_item req s now])%list)).
Proof.
  intros Hs Hb. unfold register. rewrite Hs.
  destruct (negb (JS.truthy_string s) || String.eqb (JS.trim s) "")
    eqn:Ht.
  - apply blank_test in Ht. contradiction.
  - rewrite bind_load. reflexivity.
Qed.

Lemma list_inventory_result (req : Request) (d : Document) :
  list_inventory req d =
    Returned (mkResponse 200 (ListBody (view req <$> stored d)), d).
Proof. unfold list_inventory. rewrite bind_load. reflexivity. Qed.

Lemma update_result (wanted : string) (b : UpdateBody) (d : Document) :
  update wanted b d =
    match find wanted (stored d) with
    | None => Returned (not_found, d)
    | Some (i, item) =>
        Returned
          (mkResponse 200
             (UpdatedBody "Updated" (id item) (name (updated b item))
                (description (updated b item))),
           Text (JSON_stringify (<[i := updated b item]> (stored d))))
    end.
Proof.
  unfold update. rewrite bind_load.
  destruct (find wanted (stored d)) as [[i item]|]; reflexivity.
Qed.

Lemma update_photo_result (req : Request) (wanted : string)
    (file : option File) (d : Document) :
  update_photo req wanted file d =
    match find wanted (stored d), file with
    | None, _ => Returned (not_found, d)
    | Some _, None =>
        Returned (mkResponse 400 (ErrorBody "photo is required"), d)
    | Some (i, item), Some f =>
        Returned
          (mkResponse 200
             (PhotoUpdatedBody "Photo updated" (buildPhotoUrl req (id item))),
           Text (JSON_stringify (<[i := with_photo f item]> (stored d))))
    end.
Proof.
  unfold update_photo. rewrite bind_load.
  destruct (find wanted (stored d)) as [[i item]|]; [| reflexivity].
  destruct file; reflexivity.
Qed.

Lemma delete_item_result (wanted : string) (d : Document) :
  delete_item wanted d =
    match find wanted (stored d) with
    | None => Returned (not_found, d)
    | Some (index, removed) =>
        Returned
          (mkResponse 200 (DeletedBody "Deleted" (id removed)),
           Text (JSON_stringify (delete index (stored d))))
    end.
Proof.
  unfold delete_item. rewrite bind_load.
  destruct (find wanted (stored d)) as [[i item]|]; reflexivity.
Qed.

Lemma search_result (req : SearchRequest) (d : Document) :
  search req d =
    match search_id req with
    | None => Returned (not_found, d)
    | Some wanted =>
        match find wanted (stored d) with
        | None => Returned (not_found, d)
        | Some (_, item) =>
            Returned
              (mkResponse 200
                 (SearchBody (id item) (name item)
                    (search_description req wanted item)
                    (JS.truthy (photoPath item))),
               d)
        end
    end.
Proof.
  unfold search. rewrite bind_load.
  destruct (search_id req) as [wanted|]; [| reflexivity].
  destruct (find wanted (stored d)) as [[i item]|]; reflexivity.
Qed.

Lemma get_item_result (req : Request) (wanted : string) (d : Document) :
  get_item req wanted d =
    match find wanted (stored d) with
    | None => Returned (not_found, d)
    | Some (_, item) =>
        Returned (mkResponse 200 (ItemBody (view req item)), d)
    end.
Proof.
  unfold get_item. rewrite bind_load.
  destruct (find wanted (stored d)) as [[i item]|]; reflexivity.
Qed.

End Handlers.

(** ** Sequences of calls *)

Section Traces.
Context {R : Runtime} {L : RuntimeLaws R}.

Lemma stored_written (inv : Inventory) :
  stored (Text (JSON_stringify inv)) = inv.
Proof. simpl. rewrite JSON_parse_stringify. reflexivity. Qed.

Lemma find_Some (wanted : string) (inv : Inventory) (i : nat)
    (item : Item) :
  find wanted inv = Some (i, item) ->
  inv !! i = Some item /\ id item = wanted /\
  forall j y, inv !! j = Some y -> j < i -> id y <> wanted.
Proof. unfold find. intros H. apply list_find_Some in H. exact H. Qed.

Lemma find_first_match (wanted : string) (inv : Inventory) (i : nat)
    (item : Item) :
  first_match wanted inv i item -> find wanted inv = Some (i, item).
Proof. unfold find. intros H. apply list_find_Some. exact H. Qed.

Lemma find_None (wanted : string) (inv : Inventory) :
  find wanted inv = None <-> Forall (fun x => id x <> wanted) inv.
Proof. unfold find. apply list_find_None. Qed.

(** Every handler returns, and changes the collection by its effect. *)
Lemma handle_effect (c : Call) (d : Document) :
  exists r d',
    handle c d = Returned (r, d') /\ stored d' = effect c (stored d).
Proof.
  destruct c as [req now|req|req wanted|wanted b|req wanted file|wanted|req];
    cbn [handle effect].
  - destruct (inventory_name req) as [s|] eqn:Hs.
    + destruct (decide (blank (Some s))) as [Hb|Hb].
      * rewrite register_rejects by (rewrite Hs; exact Hb). eauto.
      * rewrite (register_accepts req s) by assumption.
        do 2 eexists. split; [reflexivity | apply stored_written].
    + rewrite register_rejects by (rewrite Hs; exact I). eauto.
  - rewrite list_inventory_result. eauto.
  - rewrite get_item_result.
    destruct (find wanted (stored d)) as [[i item]|]; eauto.
  - rewrite update_result.
    destruct (find wanted (stored d)) as [[i item]|]; [| eauto].
    do 2 eexists. split; [reflexivity | apply stored_written].
  - rewrite update_photo_result.
    destruct (find wanted (stored d)) as [[i item]|], file; eauto.
    do 2 eexists. split; [reflexivity | apply stored_written].
  - rewrite delete_item_result.
    destruct (find wanted (stored d)) as [[i item]|]; [| eauto].
    do 2 eexists. split; [reflexivity | apply stored_written].
  - rewrite search_result.
    destruct (search_id req) as [wanted|]; [| eauto].
    destruct (find wanted (stored d)) as [[i item]|]; eauto.
Qed.

Lemma serve_cons (c : Call) (calls : list Call) (d d1 d2 : Document)
    (r : Response) (rs : list Response) :
  handle c d = Returned (r, d1) ->
  serve calls d1 = Returned (rs, d2) ->
  serve (c :: calls) d = Returned (r :: rs, d2).
Proof.
  intros Hc Hs. cbn [serve]. unfold bind, ret. rewrite Hc, Hs. reflexivity.
Qed.

(** Serving a sequence of calls returns, with one response per call. *)
Lemma serve_effects (calls : list Call) (d : Document) :
  exists rs d',
    serve calls d = Returned (rs, d') /\
    length rs = length calls /\
    stored d' = effects calls (stored d).
Proof.
  revert d. induction calls as [|c calls IH]; intros d; simpl.
  - exists [], d. auto.
  - destruct (handle_effect c d) as (r & d1 & Hc & Hd1).
    destruct (IH d1) as (rs & d2 & Hs & Hlen & Hd2).
    exists (r :: rs), d2. unfold bind, ret. rewrite Hc, Hs.
    split; [reflexivity |]. split; [simpl; congruence |].
    unfold effects in *. rewrite Hd2, Hd1. reflexivity.
Qed.

Lemma reachable_effects (d : Document) :
  reachable d -> exists calls, stored d = effects calls [].
Proof.
  intros (d0 & calls & rs & H0 & Hs). exists calls.
  destruct (serve_effects calls d0) as (rs' & d' & Hs' & _ & Hd').
  rewrite Hs in Hs'. injection Hs' as _ ->. rewrite Hd', H0. reflexivity.
Qed.

(** *** Invariants of the collection *)

Lemma effects_invariant (P : Inventory -> Prop) (Q : Call -> Prop) :
  (forall c inv, Q c -> P inv -> P (effect c inv)) ->
  forall calls inv, Forall Q calls -> P inv -> P (effects calls inv).
Proof.
  intros Hstep calls. unfold effects.
  induction calls as [|c calls IH]; intros inv HQ HP; simpl; [exact HP |].
  inversion HQ; subst. apply IH; [assumption |]. apply Hstep; assumption.
Qed.

Lemma not_blank_nonempty (s : string) : ~ blank (Some s) -> s <> "".
Proof. intros Hb ->. apply Hb. constructor. Qed.

Lemma path_nonempty (f : File) : path f <> "".
Proof. unfold path. destruct CACHE_DIR; discriminate. Qed.

Lemma effect_names (c : Call) (inv : Inventory) :
  keeps_name c ->
  Forall (fun x => name x <> "") inv ->
  Forall (fun x => name x <> "") (effect c inv).
Proof.
  intros Hk Hinv.
  destruct c as [req now|req|req wanted|wanted b|req wanted file|wanted|req];
    cbn [effect]; try assumption.
  - destruct (inventory_name req) as [s|]; [| assumption].
    destruct (decide (blank (Some s))) as [Hb|Hb]; [assumption |].
    apply Forall_app. split; [assumption |].
    constructor; [| constructor]. simpl. apply not_blank_nonempty, Hb.
  - destruct (find wanted inv) as [[i item]|] eqn:Hf; [| assumption].
    apply find_Some in Hf as (Hi & _).
    apply Forall_insert; [assumption |].
    pose proof (proj1 (Forall_lookup _ _) Hinv i item Hi) as Hn.
    simpl in Hk. simpl.
    destruct Hk as [Hb | [Hb | (s & Hb & Hs)]]; rewrite Hb; simpl;
      assumption.
  - destruct file as [f|]; [| assumption].
    destruct (find wanted inv) as [[i item]|] eqn:Hf; [| assumption].
    apply find_Some in Hf as (Hi & _).
    apply Forall_insert; [assumption |].
    exact (proj1 (Forall_lookup _ _) Hinv i item Hi).
  - destruct (find wanted inv) as [[i item]|]; [| assumption].
    apply Forall_delete. assumption.
Qed.

Lemma effect_photoPaths (c : Call) (inv : Inventory) :
  Forall (fun x => photoPath x <> Some "") inv ->
  Forall (fun x => photoPath x <> Some "") (effect c inv).
Proof.
  intros Hinv.
  destruct c as [req now|req|req wanted|wanted b|req wanted file|wanted|req];
    cbn [effect]; try assumption.
  - destruct (inventory_name req) as [s|]; [| assumption].
    destruct (decide (blank (Some s))) as [Hb|Hb]; [assumption |].
    apply Forall_app. split; [assumption |].
    constructor; [| constructor]. simpl.
    destruct (register_file req) as [f|]; simpl; [| discriminate].
    intros [= H]. exact (path_nonempty f H).
  - destruct (find wanted inv) as [[i item]|] eqn:Hf; [| assumption].
    apply find_Some in Hf as (Hi & _).
    apply Forall_insert; [assumption |].
    exact (proj1 (Forall_lookup _ _) Hinv i item Hi).
  - destruct file as [f|]; [| assumption].
    destruct (find wanted inv) as [[i item]|] eqn:Hf; [| assumption].
    apply Forall_insert; [assumption |]. simpl.
    intros [= H]. exact (path_nonempty f H).
  - destruct (find wanted inv) as [[i item]|]; [| assumption].
    apply Forall_delete. assumption.
Qed.

Lemma reachable_photoPaths (d : Document) :
  reachable d -> Forall (fun x => photoPath x <> Some "") (stored d).
Proof.
  intros Hr. apply reachable_effects in Hr as [calls ->].
  apply (effects_invariant _ (fun _ => True)).
  - intros c inv _. apply effect_photoPaths.
  - apply Forall_true. intros; exact I.
  - constructor.
Qed.

(** A call that takes no clock reading leaves the ids a sublist of what
    they were; a registration appends the rendering of its reading. *)
Lemma effect_ids (c : Call) (inv : Inventory) :
  match clock_reading c with
  | Some now => ids (effect c inv) = ids inv ++ [JS.Number_toString now]
  | None => ids (effect c inv) `sublist_of` ids inv
  end.
Proof.
  unfold ids.
  destruct c as [req now|req|req wanted|wanted b|req wanted file|wanted|req];
    cbn [effect clock_reading]; try reflexivity.
  - destruct (inventory_name req) as [s|].
    + destruct (decide (blank (Some s))); [reflexivity |].
      rewrite fmap_app. reflexivity.
    + destruct (decide (blank None)) as [|Hn]; [reflexivity |].
      exfalso. apply Hn. exact I.
  - destruct (find wanted inv) as [[i item]|] eqn:Hf; [| reflexivity].
    apply find_Some in Hf as (Hi & _).
    rewrite list_fmap_insert, list_insert_id; [reflexivity |].
    rewrite list_lookup_fmap, Hi. reflexivity.
  - destruct file as [f|]; [| reflexivity].
    destruct (find wanted inv) as [[i item]|] eqn:Hf; [| reflexivity].
    apply find_Some in Hf as (Hi & _).
    rewrite list_fmap_insert, list_insert_id; [reflexivity |].
    rewrite list_lookup_fmap, Hi. reflexivity.
  - destruct (find wanted inv) as [[i item]|]; [| reflexivity].
    rewrite list_fmap_delete. apply sublist_delete.
Qed.

Lemma effects_ids_distinct (calls : list Call) :
  forall (inv : Inventory) (seen : list Z),
    NoDup (ids inv) ->
    (forall i, i ∈ ids inv ->
               exists t, t ∈ seen /\ i = JS.Number_toString t) ->
    NoDup (seen ++ clock_readings calls) ->
    NoDup (ids (effects calls inv)).
Proof.
  induction calls as [|c calls IH]; intros inv seen Hnd Hseen Hclock;
    [exact Hnd |].
  change (effects (c :: calls) inv) with (effects calls (effect c inv)).
  pose proof (effect_ids c inv) as Hc.
  unfold clock_readings in Hclock. simpl in Hclock.
  destruct (clock_reading c) as [now|].
  - apply (IH _ (seen ++ [now])).
    + rewrite Hc. apply list.NoDup_app. split; [exact Hnd |].
      split; [| apply NoDup_singleton].
      intros i Hi Hin. apply list_elem_of_singleton in Hin. subst i.
      destruct (Hseen _ Hi) as (t & Ht & Heq).
      apply (inj pretty) in Heq. subst t.
      apply list.NoDup_app in Hclock as (_ & Hfresh & _).
      apply (Hfresh now Ht). left.
    + rewrite Hc. intros i Hi. apply elem_of_app in Hi as [Hi | Hi].
      * destruct (Hseen _ Hi) as (t & Ht & Heq).
        exists t. split; [apply elem_of_app; left; exact Ht | exact Heq].
      * apply list_elem_of_singleton in Hi. exists now.
        split; [apply elem_of_app; right; left | exact Hi].
    + rewrite <- app_assoc. exact Hclock.
  - apply (IH _ seen).
    + eapply sublist_NoDup; eassumption.
    + intros i Hi. apply Hseen. eapply elem_of_sublist; eassumption.
    + exact Hclock.
Qed.

(** *** Single calls on an existing item *)

Lemma update_existing (wanted : string) (b : UpdateBody) (d : Document)
    (i : nat) (item : Item) :
  first_match wanted (stored d) i item ->
  exists r d',
    update wanted b d = Returned (r, d') /\
    status r = 200%Z /\
    stored d' = <[i := updated b item]> (stored d).
Proof.
  intros Hm. apply find_first_match in Hm.
  rewrite update_result, Hm. do 2 eexists.
  split; [reflexivity |]. split; [reflexivity | apply stored_written].
Qed.

Lemma update_missing (wanted : string) (b : UpdateBody) (d : Document) :
  Forall (fun x => id x <> wanted) (stored d) ->
  update wanted b d = Returned (not_found, d).
Proof.
  intros Hn. apply find_None in Hn. rewrite update_result, Hn. reflexivity.
Qed.

Lemma search_existing (req : SearchRequest) (d : Document)
    (wanted : string) (i : nat) (item : Item) :
  search_id req = Some wanted ->
  first_match wanted (stored d) i item ->
  search req d =
    Returned
      (mkResponse 200
         (SearchBody (id item) (name item)
            (search_description req wanted item)
            (JS.truthy (photoPath item))),
       d).
Proof.
  intros Hid Hm. apply find_first_match in Hm.
  rewrite search_result, Hid, Hm. reflexivity.
Qed.

Lemma search_returns (req : SearchRequest) (d : Document) :
  exists r, search req d = Returned (r, d).
Proof.
  rewrite search_result.
  destruct (search_id req) as [wanted|]; [| eauto].
  destruct (find wanted (stored d)) as [[i item]|]; eauto.
Qed.

Lemma truthy_photoPath (item : Item) :
  photoPath item <> Some "" ->
  JS.truthy (photoPath item) = true <-> is_Some (photoPath item).
Proof.
  intros Hp. destruct (photoPath item) as [p|]; simpl.
  - split; [eauto |]. intros _. unfold JS.truthy_string.
    apply negb_true_iff. apply String.eqb_neq. congruence.
  - split; [discriminate |]. intros [? [=]].
Qed.

Lemma truthy_flag (v : option string) :
  JS.truthy v = true <-> exists s, v = Some s /\ s <> "".
Proof.
  destruct v as [s|]; simpl.
  - unfold JS.truthy_string. rewrite negb_true_iff, String.eqb_neq.
    split; [eauto |]. intros (? & [= <-] & ?). assumption.
  - split; [discriminate |]. intros (? & [=] & _).
Qed.

End Traces.

(** ** The service's properties *)

Section Claims.
Context {R : Runtime} {L : RuntimeLaws R}.

(** C3. [loadInventory] is total and never throws: on a missing or
    unreadable document, and on text that [JSON.parse] rejects, it
    returns the empty collection; on text that parses it returns the
    parsed collection.  The document is left as it was. *)
Theorem loadInventory_total (d : Document) :
  loadInventory d =
    Returned
      (match d with
       | Missing | Unreadable => []
       | Text data =>
           match JSON_parse data with
           | Some inv => inv
           | None => []
           end
       end, d).
Proof.
  destruct d as [| |data]; try reflexivity.
  unfold loadInventory, try_catch, bind, readFile, parse, ret.
  destruct (JSON_parse data) as [inv|]; reflexivity.
Qed.

(** C4. A registration whose [inventory_name] is missing, empty or
    white space only answers 400 and leaves the document, hence the
    persisted collection, untouched; any other registration answers 201
    and persists the collection extended by exactly one item at its
    end. *)
Theorem register_validates_name (req : RegisterRequest) (now : Z)
    (d : Document) :
  (blank (inventory_name req) ->
   exists r,
     register req now d = Returned (r, d) /\ status r = 400%Z) /\
  (~ blank (inventory_name req) ->
   exists r d' item,
     register req now d = Returned (r, d') /\ status r = 201%Z /\
     stored d' = stored d ++ [item] /\
     length (stored d') = S (length (stored d))).
Proof.
  split; intros Hb.
  - rewrite register_rejects by assumption. eauto.
  - destruct (inventory_name req) as [s|] eqn:Hs; [| destruct Hb; exact I].
    rewrite (register_accepts req s) by assumption.
    exists (mkResponse 201
              (CreatedBody "Created"
                 (mkItemView (JS.Number_toString now) s
                    (JS.or_else (form_description req) "")
                    (photoUrl_of (register_req req) (new_item req s now)
                       (JS.Number_toString now))))).
    exists (Text (JSON_stringify (stored d ++ [new_item req s now]))).
    exists (new_item req s now).
    rewrite stored_written, length_app. simpl.
    repeat split; try reflexivity. lia.
Qed.

(** C8. Registration stores the submitted name as it is: when the name
    is non-empty after trimming, the appended item, and the response,
    carry the raw string, surrounding white space included. *)
Theorem register_stores_raw_name (req : RegisterRequest) (now : Z)
    (d : Document) (s : string) :
  inventory_name req = Some s ->
  JS.trim s <> "" ->
  exists message v d' item,
    register req now d =
      Returned (mkResponse 201 (CreatedBody message v), d') /\
    stored d' = stored d ++ [item] /\
    name item = s /\ view_name v = s.
Proof.
  intros Hs Ht.
  assert (~ blank (Some s)) as Hb.
  { intros Hb. apply Ht. apply trim_empty. exact Hb. }
  rewrite (register_accepts req s) by assumption.
  do 3 eexists. exists (new_item req s now).
  split; [reflexivity |]. rewrite stored_written. auto.
Qed.

(** C7. Round trip of a registration through the list: from an empty
    collection, registering
    "Drill" / "cordless" without a photo and then listing returns
    exactly one entry, with that name and description and a null
    [photoUrl]. *)
Theorem register_then_list (d0 : Document) (origin req : Request)
    (now : Z) :
  stored d0 = [] ->
  exists r d,
    serve
      [PostRegister
         {| register_req := origin;
            inventory_name := Some "Drill";
            form_description := Some "cordless";
            register_file := None |} now;
       GetInventory req] d0
    = Returned
        ([r;
          mkResponse 200
            (ListBody
               [{| view_id := JS.Number_toString now;
                   view_name := "Drill";
                   view_description := "cordless";
                   photoUrl := None |}])], d).
Proof.
  intros H0. do 2 eexists.
  eapply serve_cons.
  { cbn [handle]. apply (register_accepts _ "Drill"); [reflexivity |].
    intros Hb. inversion Hb; discriminate. }
  eapply serve_cons; [| reflexivity].
  cbn [handle]. rewrite list_inventory_result, stored_written, H0.
  reflexivity.
Qed.

(** C1 (amended). Served from an empty collection, a run of calls in
    which no two accepted registrations read the same millisecond from
    the clock leaves the ids of the persisted items pairwise distinct;
    each id is the decimal rendering of the reading. *)
Theorem ids_distinct_for_distinct_readings (d0 d : Document)
    (calls : list Call) (rs : list Response) :
  stored d0 = [] ->
  serve calls d0 = Returned (rs, d) ->
  NoDup (clock_readings calls) ->
  NoDup (ids (stored d)).
Proof.
  intros H0 Hs Hclock.
  destruct (serve_effects calls d0) as (rs' & d' & Hs' & _ & Hd').
  rewrite Hs in Hs'. injection Hs' as _ <-. rewrite Hd', H0.
  apply (effects_ids_distinct calls [] []).
  - constructor.
  - intros i Hi. inversion Hi.
  - exact Hclock.
Qed.

(** C2 (amended). Served from an empty collection, a run of
    registrations, updates, photo replacements and deletions in which
    every update body leaves [name] absent or null, or gives a non-empty
    string for it, leaves every persisted name a non-empty string.  The
    update handler does not validate [name]: whatever non-null value the
    body carries is stored. *)
Theorem names_nonempty_for_nonempty_string_updates (d0 d : Document)
    (calls : list Call) (rs : list Response) :
  stored d0 = [] ->
  serve calls d0 = Returned (rs, d) ->
  Forall keeps_name calls ->
  Forall (fun x => name x <> "") (stored d).
Proof.
  intros H0 Hs Hk.
  destruct (serve_effects calls d0) as (rs' & d' & Hs' & _ & Hd').
  rewrite Hs in Hs'. injection Hs' as _ <-. rewrite Hd', H0.
  apply (effects_invariant _ keeps_name); [| assumption | constructor].
  intros c inv. apply effect_names.
Qed.

(** C5 (amended). An update addressed to an existing item answers 200
    and persists the collection in which that item has [name]
    (respectively [description]) replaced by the body's value exactly
    when the body carries a non-null value for it, and kept when the
    field is absent or null; the item's [id] and [photoPath], the other
    items and the length of the collection stay as they were.  When no
    item has the id, the answer is 404 and the document is untouched. *)
Theorem update_replaces_non_null_fields (wanted : string) (b : UpdateBody)
    (d : Document) :
  (forall i item,
     first_match wanted (stored d) i item ->
     exists r d' item',
       update wanted b d = Returned (r, d') /\ status r = 200%Z /\
       stored d' !! i = Some item' /\
       (forall s, body_name b = JS.Str s -> name item' = s) /\
       (body_name b = JS.Absent \/ body_name b = JS.Null ->
        name item' = name item) /\
       (forall s, body_description b = JS.Str s -> description item' = s) /\
       (body_description b = JS.Absent \/ body_description b = JS.Null ->
        description item' = description item) /\
       id item' = id item /\
       photoPath item' = photoPath item /\
       (forall j, j <> i -> stored d' !! j = stored d !! j) /\
       length (stored d') = length (stored d)) /\
  (Forall (fun x => id x <> wanted) (stored d) ->
   exists r, update wanted b d = Returned (r, d) /\ status r = 404%Z).
Proof.
  split.
  - intros i item Hm.
    destruct (update_existing wanted b d i item Hm) as (r & d' & Hu & Hr & Hd').
    exists r, d', (updated b item). rewrite Hd'.
    destruct Hm as (Hi & _).
    split; [exact Hu |]. split; [exact Hr |].
    split.
    { apply list_lookup_insert_eq. eapply lookup_lt_Some, Hi. }
    split; [intros s Hb; simpl; rewrite Hb; reflexivity |].
    split; [intros [Hb | Hb]; simpl; rewrite Hb; reflexivity |].
    split; [intros s Hb; simpl; rewrite Hb; reflexivity |].
    split; [intros [Hb | Hb]; simpl; rewrite Hb; reflexivity |].
    split; [reflexivity |]. split; [reflexivity |].
    split; [| apply length_insert].
    intros j Hj. apply list_lookup_insert_ne. congruence.
  - intros Hn. rewrite update_missing by assumption.
    exists not_found. split; reflexivity.
Qed.

(** C9. In an update of an existing item a null [name] (or
    [description]) leaves the stored field as it was, like an absent
    one, whereas the empty string replaces it by the empty string. *)
Theorem update_null_keeps_empty_replaces (wanted : string) (b : UpdateBody)
    (d : Document) (i : nat) (item : Item) :
  first_match wanted (stored d) i item ->
  exists r d' item',
    update wanted b d = Returned (r, d') /\
    stored d' !! i = Some item' /\
    (body_name b = JS.Null \/ body_name b = JS.Absent ->
     name item' = name item) /\
    (body_name b = JS.Str "" -> name item' = "") /\
    (body_description b = JS.Null \/ body_description b = JS.Absent ->
     description item' = description item) /\
    (body_description b = JS.Str "" -> description item' = "").
Proof.
  intros Hm.
  destruct (update_existing wanted b d i item Hm) as (r & d' & Hu & _ & Hd').
  exists r, d', (updated b item). rewrite Hd'.
  destruct Hm as (Hi & _).
  split; [exact Hu |].
  split.
  { apply list_lookup_insert_eq. eapply lookup_lt_Some, Hi. }
  repeat split.
  - intros [Hb | Hb]; simpl; rewrite Hb; reflexivity.
  - intros Hb; simpl; rewrite Hb; reflexivity.
  - intros [Hb | Hb]; simpl; rewrite Hb; reflexivity.
  - intros Hb; simpl; rewrite Hb; reflexivity.
Qed.

(** C6. A search returns and leaves the document, hence every stored
    description, as it was.  For a document the service produced and an
    item found:
    the returned description is the stored one followed by the photo
    note when the flag is set and the item has a photo, and the stored
    one otherwise; [hasPhoto] is true exactly when the item has a
    [photoPath]. *)
Theorem search_is_read_only (req : SearchRequest) (d : Document) :
  (exists r, search req d = Returned (r, d)) /\
  (reachable d ->
   forall wanted i item,
     search_id req = Some wanted ->
     first_match wanted (stored d) i item ->
     exists desc hasPhoto,
       search req d =
         Returned
           (mkResponse 200
              (SearchBody (id item) (name item) desc hasPhoto), d) /\
       ((exists s, has_photo req = Some s /\ s <> "") /\
        is_Some (photoPath item) ->
        desc = description item +:+ photo_note (search_req req) wanted) /\
       (~ ((exists s, has_photo req = Some s /\ s <> "") /\
           is_Some (photoPath item)) ->
        desc = description item) /\
       (hasPhoto = true <-> is_Some (photoPath item))).
Proof.
  split; [apply search_returns |].
  intros Hr wanted i item Hid Hm.
  rewrite (search_existing req d wanted i item Hid Hm).
  assert (photoPath item <> Some "") as Hp.
  { destruct Hm as (Hi & _).
    exact (proj1 (Forall_lookup _ _) (reachable_photoPaths d Hr) i item Hi). }
  do 2 eexists. split; [reflexivity |].
  unfold search_description.
  split; [| split].
  - intros [Hf Hph]. apply truthy_flag in Hf.
    apply truthy_photoPath in Hph; [| exact Hp].
    rewrite Hf, Hph. reflexivity.
  - intros Hn.
    destruct (JS.truthy (has_photo req)) eqn:Hf; [| reflexivity].
    destruct (JS.truthy (photoPath item)) eqn:Hph; [| reflexivity].
    exfalso. apply Hn. split.
    + apply truthy_flag. exact Hf.
    + apply truthy_photoPath; assumption.
  - apply truthy_photoPath. exact Hp.
Qed.

(** C10. The search flag is the truthiness of the submitted string: for
    an item that has a photo, every non-empty [has_photo], "false" and
    "0" included, makes the search append the photo note, while an
    absent or empty [has_photo] does not. *)
Theorem search_flag_is_truthiness (req : SearchRequest) (d : Document)
    (wanted : string) (i : nat) (item : Item) :
  reachable d ->
  search_id req = Some wanted ->
  first_match wanted (stored d) i item ->
  is_Some (photoPath item) ->
  exists desc,
    search req d =
      Returned
        (mkResponse 200 (SearchBody (id item) (name item) desc true), d) /\
    (forall s, has_photo req = Some s -> s <> "" ->
               desc = description item +:+ photo_note (search_req req) wanted) /\
    (has_photo req = Some "false" \/ has_photo req = Some "0" ->
     desc = description item +:+ photo_note (search_req req) wanted) /\
    (has_photo req = None \/ has_photo req = Some "" ->
     desc = description item).
Proof.
  intros Hr Hid Hm Hph.
  assert (JS.truthy (photoPath item) = true) as Ht.
  { apply truthy_photoPath; [| exact Hph].
    destruct Hm as (Hi & _).
    exact (proj1 (Forall_lookup _ _) (reachable_photoPaths d Hr) i item Hi). }
  rewrite (search_existing req d wanted i item Hid Hm), Ht.
  eexists. split; [reflexivity |].
  unfold search_description. rewrite Ht.
  assert (forall s, has_photo req = Some s -> s <> "" ->
            (if JS.truthy (has_photo req) && true
             then description item +:+ String "010" "Photo: "
                    +:+ buildPhotoUrl (search_req req) wanted
             else description item)
            = description item +:+ photo_note (search_req req) wanted)
    as Hset.
  { intros s Hs Hne.
    assert (JS.truthy (has_photo req) = true) as ->
        by (apply truthy_flag; eauto).
    reflexivity. }
  split; [exact Hset |]. split.
  - intros [Hf | Hf]; apply (Hset _ Hf); discriminate.
  - intros [Hf | Hf]; rewrite Hf; reflexivity.
Qed.

End Claims.

(** ** Further properties of the handlers *)

Section Lookups.
Context {R : Runtime}.

Lemma first_match_insert (wanted : string) (inv : Inventory) (i : nat)
    (item item' : Item) :
  first_match wanted inv i item ->
  id item' = wanted ->
  first_match wanted (<[i := item']> inv) i item'.
Proof.
  intros (Hi & _ & Hfirst) Hid. split; [| split].
  - apply list_lookup_insert_eq. eapply lookup_lt_Some, Hi.
  - exact Hid.
  - intros j y Hj Hlt. rewrite list_lookup_insert_ne in Hj by lia.
    eapply Hfirst; eassumption.
Qed.

Lemma first_match_app (wanted : string) (inv more : Inventory) (i : nat)
    (item : Item) :
  first_match wanted inv i item ->
  first_match wanted (inv ++ more) i item.
Proof.
  intros (Hi & Hid & Hfirst).
  pose proof (lookup_lt_Some _ _ _ Hi) as Hlt.
  split; [| split].
  - rewrite lookup_app_l by exact Hlt. exact Hi.
  - exact Hid.
  - intros j y Hj Hji. rewrite lookup_app_l in Hj by lia.
    eapply Hfirst; eassumption.
Qed.

Lemma first_match_fresh (wanted : string) (inv : Inventory) (x : Item) :
  Forall (fun y => id y <> wanted) inv ->
  id x = wanted ->
  first_match wanted (inv ++ [x]) (length inv) x.
Proof.
  intros Hn Hid. split; [| split].
  - rewrite lookup_app_r by lia. rewrite Nat.sub_diag. reflexivity.
  - exact Hid.
  - intros j y Hj Hlt. rewrite lookup_app_l in Hj by exact Hlt.
    exact (proj1 (Forall_lookup _ _) Hn j y Hj).
Qed.

Lemma delete_last_match (wanted : string) (inv : Inventory) (i : nat)
    (item : Item) :
  NoDup (ids inv) ->
  first_match wanted inv i item ->
  Forall (fun y => id y <> wanted) (delete i inv).
Proof.
  intros Hnd (Hi & Hid & Hfirst). apply Forall_lookup. intros j y Hj.
  destruct (decide (j < i)) as [Hlt | Hge].
  - rewrite list_lookup_delete_lt in Hj by exact Hlt.
    eapply Hfirst; eassumption.
  - rewrite list_lookup_delete_ge in Hj by lia.
    intros Hy.
    assert (S j = i) as Heq; [| lia].
    apply (NoDup_lookup (ids inv) (S j) i wanted Hnd); unfold ids;
      rewrite list_lookup_fmap.
    + rewrite Hj. simpl. congruence.
    + rewrite Hi. simpl. congruence.
Qed.

Lemma get_item_existing (req : Request) (wanted : string) (d : Document)
    (i : nat) (item : Item) :
  first_match wanted (stored d) i item ->
  get_item req wanted d
  = Returned (mkResponse 200 (ItemBody (view req item)), d).
Proof.
  intros Hm. apply find_first_match in Hm.
  rewrite get_item_result, Hm. reflexivity.
Qed.

Lemma get_item_missing (req : Request) (wanted : string) (d : Document) :
  Forall (fun x => id x <> wanted) (stored d) ->
  get_item req wanted d = Returned (not_found, d).
Proof.
  intros Hn. apply find_None in Hn. rewrite get_item_result, Hn.
  reflexivity.
Qed.

End Lookups.

Section Extras.
Context {R : Runtime} {L : RuntimeLaws R}.

(** X1. Deleting an id that some item carries answers 200 with that id
    and persists the collection without the first such item, the others
    in their order; deleting an id no item carries answers 404 and
    leaves the document untouched. *)
Theorem delete_removes_first_match (wanted : string) (d : Document) :
  (forall i item,
     first_match wanted (stored d) i item ->
     exists d',
       delete_item wanted d
       = Returned (mkResponse 200 (DeletedBody "Deleted" wanted), d') /\
       stored d' = take i (stored d) ++ drop (S i) (stored d) /\
       S (length (stored d')) = length (stored d)) /\
  (Forall (fun x => id x <> wanted) (stored d) ->
   delete_item wanted d = Returned (not_found, d)).
Proof.
  split.
  - intros i item Hm. pose proof Hm as (Hi & Hid & _).
    apply find_first_match in Hm.
    rewrite delete_item_result, Hm, Hid.
    eexists. split; [reflexivity |].
    rewrite stored_written. split; [apply delete_take_drop |].
    rewrite length_delete by eauto.
    apply lookup_lt_Some in Hi. lia.
  - intros Hn. apply find_None in Hn.
    rewrite delete_item_result, Hn. reflexivity.
Qed.

(** X2. Replacing a photo: an unknown id answers 404 whether or not a
    file came with the request; a known id without a file answers 400;
    in both cases the document is untouched.  With a file, the first item
    with the id gets the path of the upload as [photoPath], and nothing
    else in the collection changes. *)
Theorem update_photo_sets_path_only (req : Request) (wanted : string)
    (d : Document) :
  (Forall (fun x => id x <> wanted) (stored d) ->
   forall file, update_photo req wanted file d = Returned (not_found, d)) /\
  (forall i item,
     first_match wanted (stored d) i item ->
     update_photo req wanted None d
     = Returned (mkResponse 400 (ErrorBody "photo is required"), d) /\
     forall f,
     exists d',
       update_photo req wanted (Some f) d
       = Returned
           (mkResponse 200
              (PhotoUpdatedBody "Photo updated" (buildPhotoUrl req wanted)),
            d') /\
       stored d' !! i
       = Some (mkItem (id item) (name item) (description item)
                 (Some (path f))) /\
       (forall j, j <> i -> stored d' !! j = stored d !! j) /\
       length (stored d') = length (stored d)).
Proof.
  split.
  - intros Hn file. apply find_None in Hn.
    rewrite update_photo_result, Hn. reflexivity.
  - intros i item Hm. pose proof Hm as (Hi & Hid & _).
    apply find_first_match in Hm. split.
    + rewrite update_photo_result, Hm. reflexivity.
    + intros f. rewrite update_photo_result, Hm.
      eexists. split; [rewrite Hid; reflexivity |]. rewrite stored_written.
      split; [| split].
      * apply list_lookup_insert_eq. eapply lookup_lt_Some, Hi.
      * intros j Hj. apply list_lookup_insert_ne. congruence.
      * apply length_insert.
Qed.

(** X3. Every handler answers with status 200, 201, 400 or 404, and an
    answer of 400 or 404 leaves the document exactly as it was. *)
Theorem failures_leave_document (c : Call) (d d' : Document)
    (r : Response) :
  handle c d = Returned (r, d') ->
  (status r = 200%Z \/ status r = 201%Z \/ is_error r) /\
  (is_error r -> d' = d).
Proof.
  unfold is_error.
  destruct c as [req now|req|req wanted|wanted b|req wanted file|wanted|req];
    cbn [handle].
  - destruct (decide (blank (inventory_name req))) as [Hb | Hb].
    + rewrite register_rejects by exact Hb. intros [= <- <-]. simpl. auto.
    + destruct (inventory_name req) as [s|] eqn:Hs; [| destruct Hb; exact I].
      rewrite (register_accepts req s) by assumption.
      intros [= <- <-]. simpl. split; [auto |]. intros [? | ?]; discriminate.
  - rewrite list_inventory_result. intros [= <- <-]. simpl. auto.
  - rewrite get_item_result.
    destruct (find wanted (stored d)) as [[i item]|];
      intros [= <- <-]; simpl; auto.
  - rewrite update_result.
    destruct (find wanted (stored d)) as [[i item]|];
      intros [= <- <-]; simpl; [| auto].
    split; [auto |]. intros [? | ?]; discriminate.
  - rewrite update_photo_result.
    destruct (find wanted (stored d)) as [[i item]|], file as [f|];
      intros [= <- <-]; simpl; auto.
    split; [auto |]. intros [? | ?]; discriminate.
  - rewrite delete_item_result.
    destruct (find wanted (stored d)) as [[i item]|];
      intros [= <- <-]; simpl; [| auto].
    split; [auto |]. intros [? | ?]; discriminate.
  - rewrite search_result.
    destruct (search_id req) as [wanted|]; [| intros [= <- <-]; simpl; auto].
    destruct (find wanted (stored d)) as [[i item]|];
      intros [= <- <-]; simpl; auto.
Qed.

Lemma or_else_empty (v : option string) : JS.or_else v "" = default "" v.
Proof.
  destruct v as [s|]; simpl; [| reflexivity].
  unfold JS.truthy_string. destruct (String.eqb_spec s ""); simpl; congruence.
Qed.

Lemma truthy_path (f : File) : JS.truthy_string (path f) = true.
Proof.
  unfold JS.truthy_string. apply negb_true_iff, String.eqb_neq.
  apply path_nonempty.
Qed.

(** X5. A registration under an id no stored item carries can be read
    back: get by the assigned id returns the submitted name, the
    description (empty when none was sent) and a photo URL exactly when a
    file was uploaded. *)
Theorem register_then_get (req : RegisterRequest) (greq : Request)
    (now : Z) (d : Document) (s : string) :
  inventory_name req = Some s ->
  ~ blank (Some s) ->
  Forall (fun x => id x <> JS.Number_toString now) (stored d) ->
  exists r d',
    register req now d = Returned (r, d') /\
    get_item greq (JS.Number_toString now) d'
    = Returned
        (mkResponse 200
           (ItemBody
              {| view_id := JS.Number_toString now;
                 view_name := s;
                 view_description := default "" (form_description req);
                 photoUrl :=
                   (fun _ => buildPhotoUrl greq (JS.Number_toString now))
                     <$> register_file req |}),
         d').
Proof.
  intros Hs Hb Hfresh.
  rewrite (register_accepts req s) by assumption.
  do 2 eexists. split; [reflexivity |].
  rewrite (get_item_existing greq _ _ (length (stored d)) (new_item req s now)).
  - unfold view, photoUrl_of. simpl. rewrite or_else_empty.
    destruct (register_file req) as [f|]; simpl; [| reflexivity].
    rewrite truthy_path. reflexivity.
  - rewrite stored_written. apply first_match_fresh; [exact Hfresh |].
    reflexivity.
Qed.

(** X6. A registration that is assigned an id some stored item already
    carries is persisted, yet cannot be reached by that id: get by the id
    answers with the older item, as before the registration. *)
Theorem colliding_id_addresses_older_item (req : RegisterRequest)
    (greq : Request) (now : Z) (d : Document) (s : string) (i : nat)
    (item : Item) :
  inventory_name req = Some s ->
  ~ blank (Some s) ->
  first_match (JS.Number_toString now) (stored d) i item ->
  exists r d' r0,
    register req now d = Returned (r, d') /\
    length (stored d') = S (length (stored d)) /\
    first_match (JS.Number_toString now) (stored d') i item /\
    get_item greq (JS.Number_toString now) d = Returned (r0, d) /\
    get_item greq (JS.Number_toString now) d' = Returned (r0, d').
Proof.
  intros Hs Hb Hm.
  rewrite (register_accepts req s) by assumption.
  do 3 eexists. split; [reflexivity |].
  rewrite stored_written, length_app. simpl.
  split; [lia |].
  split; [apply first_match_app; exact Hm |].
  split.
  - apply (get_item_existing greq _ d i item Hm).
  - apply (get_item_existing greq _ _ i item).
    rewrite stored_written. apply first_match_app. exact Hm.
Qed.

(** X7. Registering under an id no stored item carries and then deleting
    that id gives back the collection as it was. *)
Theorem register_then_delete (req : RegisterRequest) (now : Z)
    (d : Document) (s : string) :
  inventory_name req = Some s ->
  ~ blank (Some s) ->
  Forall (fun x => id x <> JS.Number_toString now) (stored d) ->
  exists r d',
    serve [PostRegister req now; DeleteItem (JS.Number_toString now)] d
    = Returned
        ([r; mkResponse 200 (DeletedBody "Deleted" (JS.Number_toString now))],
         d') /\
    stored d' = stored d.
Proof.
  intros Hs Hb Hfresh.
  pose proof (first_match_fresh _ _ (new_item req s now) Hfresh eq_refl) as Hm.
  apply find_first_match in Hm.
  do 2 eexists. split.
  - eapply serve_cons.
    { cbn [handle]. apply (register_accepts req s); assumption. }
    eapply serve_cons; [| reflexivity].
    cbn [handle]. rewrite delete_item_result, stored_written, Hm.
    reflexivity.
  - rewrite stored_written, delete_middle. apply app_nil_r.
Qed.

(** X8. Updating is idempotent: sending the same update a second time
    gives the same answer and leaves the collection as the first one
    made it. *)
Theorem update_idempotent (wanted : string) (b : UpdateBody)
    (d : Document) :
  exists r d1 d2,
    update wanted b d = Returned (r, d1) /\
    update wanted b d1 = Returned (r, d2) /\
    stored d2 = stored d1.
Proof.
  destruct (find wanted (stored d)) as [[i item]|] eqn:Hf.
  - pose proof (find_Some _ _ _ _ Hf) as Hm.
    assert (first_match wanted (<[i := updated b item]> (stored d)) i
              (updated b item)) as Hm'.
    { apply (first_match_insert _ _ _ item); [exact Hm |]. apply Hm. }
    apply find_first_match in Hm'.
    assert (updated b (updated b item) = updated b item) as Hidem.
    { unfold updated. simpl.
      destruct (body_name b), (body_description b); reflexivity. }
    do 3 eexists. split; [rewrite update_result, Hf; reflexivity |].
    rewrite update_result, stored_written, Hm', Hidem.
    rewrite list_insert_insert_eq.
    split; [reflexivity |]. rewrite !stored_written. reflexivity.
  - exists not_found, d, d.
    rewrite update_result, Hf. auto.
Qed.

(** X9. An update of an existing item can be read back: a following get
    by the id returns the name and description the update answered
    with. *)
Theorem update_then_get (wanted : string) (b : UpdateBody) (greq : Request)
    (d : Document) (i : nat) (item : Item) :
  first_match wanted (stored d) i item ->
  exists n ds d' v,
    update wanted b d
    = Returned (mkResponse 200 (UpdatedBody "Updated" wanted n ds), d') /\
    get_item greq wanted d' = Returned (mkResponse 200 (ItemBody v), d') /\
    view_id v = wanted /\ view_name v = n /\ view_description v = ds.
Proof.
  intros Hm. pose proof Hm as (_ & Hid & _).
  assert (first_match wanted (<[i := updated b item]> (stored d)) i
            (updated b item)) as Hm'.
  { apply (first_match_insert _ _ _ item); assumption. }
  apply find_first_match in Hm.
  do 4 eexists. split; [rewrite update_result, Hm, Hid; reflexivity |].
  split.
  - apply (get_item_existing greq _ _ i (updated b item)).
    rewrite stored_written. exact Hm'.
  - simpl. auto.
Qed.

(** X10. When the stored ids are pairwise distinct, a deleted item is
    gone: after a successful delete, get by the id answers 404. *)
Theorem delete_then_get (wanted : string) (greq : Request) (d : Document)
    (i : nat) (item : Item) :
  NoDup (ids (stored d)) ->
  first_match wanted (stored d) i item ->
  exists d',
    delete_item wanted d
    = Returned (mkResponse 200 (DeletedBody "Deleted" wanted), d') /\
    get_item greq wanted d' = Returned (not_found, d').
Proof.
  intros Hnd Hm. pose proof Hm as (_ & Hid & _).
  pose proof (delete_last_match _ _ _ _ Hnd Hm) as Hgone.
  apply find_first_match in Hm.
  eexists. split; [rewrite delete_item_result, Hm, Hid; reflexivity |].
  apply get_item_missing. rewrite stored_written. exact Hgone.
Qed.

Lemma clock_readings_cons (c : Call) (calls : list Call) :
  clock_readings (c :: calls)
  = match clock_reading c with
    | Some t => t :: clock_readings calls
    | None => clock_readings calls
    end.
Proof. reflexivity. Qed.

Lemma effects_ids_from_clock (calls : list Call) :
  forall inv : Inventory,
    (forall i, i ∈ ids (effects calls inv) ->
               i ∈ ids inv \/
               exists t, t ∈ clock_readings calls /\ i = JS.Number_toString t) /\
    length (ids (effects calls inv))
    <= length (ids inv) + length (clock_readings calls).
Proof.
  induction calls as [|c calls IH]; intros inv.
  - split; [auto |]. simpl. lia.
  - change (effects (c :: calls) inv) with (effects calls (effect c inv)).
    destruct (IH (effect c inv)) as [Hin Hlen].
    pose proof (effect_ids c inv) as Hc.
    rewrite clock_readings_cons.
    destruct (clock_reading c) as [now|]; simpl.
    + rewrite Hc in Hin, Hlen. rewrite length_app in Hlen. simpl in Hlen.
      split; [| lia].
      intros i Hi. destruct (Hin i Hi) as [Hold | (t & Ht & Heq)].
      * apply elem_of_app in Hold as [Hold | Hnew]; [left; exact Hold |].
        apply list_elem_of_singleton in Hnew. right. exists now.
        split; [left | exact Hnew].
      * right. exists t. split; [right; exact Ht | exact Heq].
    + pose proof (sublist_length _ _ Hc) as Hsub.
      split; [| lia].
      intros i Hi. destruct (Hin i Hi) as [Hold | Hnew]; [| right; exact Hnew].
      left. eapply elem_of_sublist; eassumption.
Qed.

(** X11. Served from an empty collection, every persisted id is the
    decimal rendering of the clock reading of an accepted registration of
    the run, and the collection has at most as many items as the run has
    accepted registrations. *)
Theorem ids_come_from_clock (d0 d : Document) (calls : list Call)
    (rs : list Response) :
  stored d0 = [] ->
  serve calls d0 = Returned (rs, d) ->
  (forall x, x ∈ stored d ->
             exists t, t ∈ clock_readings calls /\
                       id x = JS.Number_toString t) /\
  length (stored d) <= length (clock_readings calls).
Proof.
  intros H0 Hs.
  destruct (serve_effects calls d0) as (rs' & d' & Hs' & _ & Hd').
  rewrite Hs in Hs'. injection Hs' as _ <-. rewrite Hd', H0.
  destruct (effects_ids_from_clock calls []) as [Hin Hlen].
  unfold ids in Hlen. rewrite length_fmap in Hlen. simpl in Hlen.
  split; [| exact Hlen].
  intros x Hx.
  destruct (Hin (id x)) as [Hnil | Ht].
  - unfold ids. apply list_elem_of_fmap. exists x. auto.
  - inversion Hnil.
  - exact Ht.
Qed.



(** X13. Listing leaves the document untouched and, for a document the
    service produced, returns one entry per stored item, in collection
    order, with the item's id, name and description and a photo URL
    exactly for the items that have a photo. *)
Theorem list_mirrors_collection (req : Request) (d : Document) :
  reachable d ->
  exists entries,
    list_inventory req d = Returned (mkResponse 200 (ListBody entries), d) /\
    length entries = length (stored d) /\
    forall i item,
      stored d !! i = Some item ->
      entries !! i
      = Some {| view_id := id item;
                view_name := name item;
                view_description := description item;
                photoUrl := expected_photoUrl req item |}.
Proof.
  intros Hr. rewrite list_inventory_result.
  eexists. split; [reflexivity |]. split; [apply length_fmap |].
  intros i item Hi. rewrite list_lookup_fmap, Hi. simpl.
  unfold view, photoUrl_of, expected_photoUrl.
  pose proof (proj1 (Forall_lookup _ _) (reachable_photoPaths d Hr) i item Hi)
    as Hp. simpl in Hp.
  destruct (photoPath item) as [p|]; simpl; [| reflexivity].
  unfold JS.truthy_string.
  destruct (String.eqb_spec p ""); [congruence | reflexivity].
Qed.

(** X14. Start-up never loses data: when [JSON.parse] reads "[]" as the
    empty array, [ensureCacheDir] writes "[]" over a missing document
    only, leaves any other document as it is, keeps the collection the
    document denotes, and does nothing when run a second time. *)
Theorem ensureCacheDir_keeps_collection (d : Document) :
  JSON_parse "[]" = Some [] ->
  exists d',
    ensureCacheDir d = Returned (tt, d') /\
    stored d' = stored d /\
    (d = Missing -> d' = Text "[]") /\
    (d <> Missing -> d' = d) /\
    ensureCacheDir d' = Returned (tt, d').
Proof.
  intros Hempty. destruct d as [| |data].
  - exists (Text "[]"). split; [reflexivity |].
    split; [simpl; rewrite Hempty; reflexivity |].
    split; [reflexivity |]. split; [congruence | reflexivity].
  - exists Unreadable. repeat split; congruence.
  - exists (Text data). repeat split; congruence.
Qed.

Lemma get_photo_result (files : PhotoFiles) (wanted : string)
    (d : Document) :
  get_photo files wanted d =
    match find wanted (stored d) with
    | None => Returned (JsonResponse photo_not_found, d)
    | Some (_, item) =>
        match photoPath item with
        | None => Returned (JsonResponse photo_not_found, d)
        | Some p =>
            if negb (JS.truthy_string p)
            then Returned (JsonResponse photo_not_found, d)
            else
              match files !! p with
              | Some data =>
                  Returned (ImageResponse "image/jpeg" "inline" data, d)
              | None => Thrown ENOENT
              end
        end
    end.
Proof.
  unfold get_photo. rewrite bind_load.
  destruct (find wanted (stored d)) as [[i item]|]; [| reflexivity].
  destruct (photoPath item) as [p|]; [| reflexivity].
  destruct (negb (JS.truthy_string p)); [reflexivity |].
  unfold bind, readPhoto, ret. destruct (files !! p); reflexivity.
Qed.

(** X15. Fetching a photo never changes the document.  On a document the
    service produced it answers 404 "Photo not found" exactly when no
    item carries the id or the first item that does has no photo. *)
Theorem get_photo_not_found (files : PhotoFiles) (wanted : string)
    (d : Document) :
  (forall r d', get_photo files wanted d = Returned (r, d') -> d' = d) /\
  (reachable d ->
   get_photo files wanted d = Returned (JsonResponse photo_not_found, d) <->
   Forall (fun x => id x <> wanted) (stored d) \/
   exists i item,
     first_match wanted (stored d) i item /\ photoPath item = None).
Proof.
  split.
  - intros r d'. rewrite get_photo_result.
    destruct (find wanted (stored d)) as [[i item]|]; [| congruence].
    destruct (photoPath item) as [p|]; [| congruence].
    destruct (negb (JS.truthy_string p)); [congruence |].
    destruct (files !! p); congruence.
  - intros Hr. rewrite get_photo_result.
    destruct (find wanted (stored d)) as [[i item]|] eqn:Hf.
    + pose proof (find_Some _ _ _ _ Hf) as Hm.
      assert (photoPath item <> Some "") as Hp.
      { destruct Hm as (Hi & _).
        exact (proj1 (Forall_lookup _ _) (reachable_photoPaths d Hr)
                 i item Hi). }
      destruct (photoPath item) as [p|] eqn:Hph.
      * assert (JS.truthy_string p = true) as ->.
        { unfold JS.truthy_string. apply negb_true_iff, String.eqb_neq.
          congruence. }
        simpl. split.
        -- destruct (files !! p); discriminate.
        -- intros [Hn | (j & other & Hm' & Hnone)].
           ++ apply find_None in Hn. congruence.
           ++ apply find_first_match in Hm'. congruence.
      * split; [| reflexivity]. intros _. right. eauto.
    + split; [| reflexivity]. intros _. left. apply find_None. exact Hf.
Qed.

(** X16. For an item with a photo, in a document the service produced:
    when the photo file is there its bytes are sent as image/jpeg, inline,
    whatever they are; when the file is gone the handler throws instead
    of answering. *)
Theorem get_photo_serves_file (files : PhotoFiles) (wanted : string)
    (d : Document) (i : nat) (item : Item) (p : string) :
  reachable d ->
  first_match wanted (stored d) i item ->
  photoPath item = Some p ->
  (forall data,
     files !! p = Some data ->
     get_photo files wanted d
     = Returned (ImageResponse "image/jpeg" "inline" data, d)) /\
  (files !! p = None -> get_photo files wanted d = Thrown ENOENT).
Proof.
  intros Hr Hm Hph.
  assert (JS.truthy_string p = true) as Ht.
  { unfold JS.truthy_string. apply negb_true_iff, String.eqb_neq.
    destruct Hm as (Hi & _).
    pose proof (proj1 (Forall_lookup _ _) (reachable_photoPaths d Hr)
                  i item Hi) as Hp.
    simpl in Hp. congruence. }
  apply find_first_match in Hm.
  rewrite get_photo_result, Hm, Hph, Ht. simpl.
  split; [intros data -> | intros ->]; reflexivity.
Qed.

(** X17. After a photo is replaced twice, fetching the photo serves the
    file of the second upload. *)
Theorem replace_twice_serves_latest (files : PhotoFiles) (req : Request)
    (wanted : string) (d : Document) (i : nat) (item : Item)
    (f1 f2 : File) (data : string) :
  first_match wanted (stored d) i item ->
  files !! path f2 = Some data ->
  exists r1 r2 d',
    serve [PutPhoto req wanted (Some f1); PutPhoto req wanted (Some f2)] d
    = Returned ([r1; r2], d') /\
    get_photo files wanted d'
    = Returned (ImageResponse "image/jpeg" "inline" data, d').
Proof.
  intros Hm Hdata. pose proof Hm as (_ & Hid & _).
  pose proof (first_match_insert _ _ _ _ (with_photo f1 item) Hm Hid) as Hm1.
  pose proof (first_match_insert _ _ _ _ (with_photo f2 (with_photo f1 item))
                Hm1 Hid) as Hm2.
  apply find_first_match in Hm, Hm1, Hm2.
  do 3 eexists. split.
  - eapply serve_cons.
    { cbn [handle]. rewrite update_photo_result, Hm. reflexivity. }
    eapply serve_cons; [| reflexivity].
    cbn [handle]. rewrite update_photo_result, stored_written, Hm1.
    reflexivity.
  - rewrite get_photo_result, stored_written, Hm2. simpl.
    rewrite truthy_path. simpl. rewrite Hdata. reflexivity.
Qed.

(** X18. A search answers 404 exactly when the form carries no [id] or no
    stored item carries the submitted id; otherwise it answers 200 with
    the id and name of the first item carrying it. *)
Theorem search_not_found_iff (req : SearchRequest) (d : Document) :
  (search req d = Returned (not_found, d) <->
   search_id req = None \/
   exists wanted,
     search_id req = Some wanted /\
     Forall (fun x => id x <> wanted) (stored d)) /\
  (forall wanted i item,
     search_id req = Some wanted ->
     first_match wanted (stored d) i item ->
     exists desc hasPhoto,
       search req d
       = Returned
           (mkResponse 200 (SearchBody wanted (name item) desc hasPhoto), d)).
Proof.
  split.
  - rewrite search_result.
    destruct (search_id req) as [wanted|]; [| split; auto].
    destruct (find wanted (stored d)) as [[i item]|] eqn:Hf.
    + split; [discriminate |].
      intros [[=] | (w & [= <-] & Hn)].
      apply find_None in Hn. congruence.
    + split; [| reflexivity]. intros _. right. exists wanted.
      split; [reflexivity | apply find_None; exact Hf].
  - intros wanted i item Hid Hm. pose proof Hm as (_ & Hw & _).
    rewrite (search_existing req d wanted i item Hid Hm), Hw. eauto.
Qed.

End Extras.

(** ** The properties on the sample run *)

#[local] Existing Instance Reference.runtime.

Lemma sample_run :
  stored Sample.document = [Sample.stored_drill; Sample.stored_saw].
Proof. vm_compute. reflexivity. Qed.

Lemma sample_served :
  serve (R := Reference.runtime) Sample.calls Missing
  = Returned (Sample.responses, Sample.document).
Proof. vm_compute. reflexivity. Qed.

Lemma sample_reachable : @reachable Reference.runtime Sample.document.
Proof.
  exists Missing, Sample.calls, Sample.responses.
  split; [reflexivity | exact sample_served].
Qed.

Lemma sample_first_drill :
  @first_match "1700000000000" (@stored Reference.runtime Sample.document)
    0 Sample.stored_drill.
Proof.
  rewrite sample_run. split; [reflexivity |]. split; [reflexivity |].
  intros j y _ Hj. lia.
Qed.

Lemma sample_first_saw :
  @first_match "1700000000001" (@stored Reference.runtime Sample.document)
    1 Sample.stored_saw.
Proof.
  rewrite sample_run. split; [reflexivity |]. split; [reflexivity |].
  intros j y Hy Hj. destruct j as [|j]; [| lia].
  injection Hy as <-. discriminate.
Qed.

Lemma ids_distinct_for_distinct_readings_witness :
  NoDup (ids (@stored Reference.runtime Sample.document)).
Proof.
  apply (@ids_distinct_for_distinct_readings Reference.runtime
           Reference_laws Missing Sample.document Sample.calls
           Sample.responses).
  - reflexivity.
  - exact sample_served.
  - apply (bool_decide_unpack _). vm_compute. exact I.
Defined.

Lemma names_nonempty_for_nonempty_string_updates_witness :
  Forall (fun x => name x <> "") (@stored Reference.runtime Sample.document).
Proof.
  apply (@names_nonempty_for_nonempty_string_updates Reference.runtime
           Reference_laws Missing Sample.document Sample.calls
           Sample.responses).
  - reflexivity.
  - exact sample_served.
  - repeat (constructor;
            [first [exact I
                   | simpl; right; right; exists "Hammer drill";
                     split; [reflexivity | discriminate]] |]).
    constructor.
Defined.

Lemma register_validates_name_witness :
  (exists r,
     register (R := Reference.runtime) Sample.spaces 1700000000003
       Sample.document = Returned (r, Sample.document) /\
     status r = 400%Z) /\
  (exists r d' item,
     register (R := Reference.runtime) Sample.padded 1700000000003
       Sample.document = Returned (r, d') /\
     status r = 201%Z /\
     stored d' = stored Sample.document ++ [item] /\
     length (stored d') = 3).
Proof.
  split.
  - apply (@register_validates_name Reference.runtime Reference_laws
             Sample.spaces 1700000000003 Sample.document).
    simpl. repeat constructor.
  - destruct (proj2 (@register_validates_name Reference.runtime
                       Reference_laws Sample.padded 1700000000003
                       Sample.document))
      as (r & d' & item & Hr & Hs & Hd & Hlen).
    + apply (bool_decide_unpack _). vm_compute. exact I.
    + exists r, d', item. rewrite Hlen, sample_run. auto.
Defined.

Lemma register_stores_raw_name_witness :
  exists message v d' item,
    register (R := Reference.runtime) Sample.padded 1700000000003 Missing
    = Returned (mkResponse 201 (CreatedBody message v), d') /\
    stored d' = stored Missing ++ [item] /\
    name item = " Drill " /\ view_name v = " Drill ".
Proof.
  apply (@register_stores_raw_name Reference.runtime Reference_laws
           Sample.padded 1700000000003 Missing " Drill ").
  - reflexivity.
  - vm_compute. discriminate.
Defined.

Lemma register_then_list_witness :
  exists r d,
    serve (R := Reference.runtime)
      [PostRegister Sample.drill 1700000000000; GetInventory Sample.origin]
      Missing
    = Returned
        ([r;
          mkResponse 200
            (ListBody
               [{| view_id := "1700000000000";
                   view_name := "Drill";
                   view_description := "cordless";
                   photoUrl := None |}])], d).
Proof.
  apply (@register_then_list Reference.runtime Reference_laws Missing
           Sample.origin Sample.origin 1700000000000).
  reflexivity.
Defined.

Lemma update_replaces_non_null_fields_witness :
  exists r d' item',
    update (R := Reference.runtime) "1700000000000" Sample.rename
      Sample.document = Returned (r, d') /\
    status r = 200%Z /\
    stored d' !! 0 = Some item' /\
    name item' = "Hammer drill" /\
    description item' = "cordless" /\
    stored d' !! 1 = Some Sample.stored_saw.
Proof.
  destruct (proj1 (@update_replaces_non_null_fields Reference.runtime
                     Reference_laws "1700000000000" Sample.rename
                     Sample.document) 0 Sample.stored_drill
              sample_first_drill)
    as (r & d' & item' & Hu & Hr & Hi & Hn & _ & _ & Hd & _ & _ & Ho & _).
  exists r, d', item'. rewrite (Ho 1) by lia. rewrite sample_run.
  rewrite (Hn "Hammer drill") by reflexivity.
  rewrite Hd by (right; reflexivity). repeat split; assumption || reflexivity.
Defined.

Lemma update_null_keeps_empty_replaces_witness :
  exists r d' item',
    update (R := Reference.runtime) "1700000000001" Sample.null_name
      Sample.document = Returned (r, d') /\
    stored d' !! 1 = Some item' /\
    name item' = "Saw" /\ description item' = "".
Proof.
  destruct (@update_null_keeps_empty_replaces Reference.runtime
              Reference_laws "1700000000001" Sample.null_name
              Sample.document 1 Sample.stored_saw sample_first_saw)
    as (r & d' & item' & Hu & Hi & Hn & _ & _ & Hd).
  exists r, d', item'.
  rewrite Hn by (left; reflexivity). rewrite Hd by reflexivity. auto.
Defined.

Lemma search_is_read_only_witness :
  exists desc hasPhoto,
    search (R := Reference.runtime) (Sample.search_saw (Some "1"))
      Sample.document
    = Returned
        (mkResponse 200
           (SearchBody "1700000000001" "Saw" desc hasPhoto),
         Sample.document) /\
    desc = String "010"
             "Photo: http://localhost:3000/inventory/1700000000001/photo" /\
    hasPhoto = true.
Proof.
  destruct (proj2 (@search_is_read_only Reference.runtime Reference_laws
                     (Sample.search_saw (Some "1")) Sample.document)
              sample_reachable "1700000000001" 1 Sample.stored_saw
              eq_refl sample_first_saw)
    as (desc & hasPhoto & Hs & Hset & _ & Hp).
  exists desc, hasPhoto. split; [exact Hs |]. split.
  - rewrite Hset; [reflexivity |].
    split; [exists "1"; split; [reflexivity | discriminate] | eexists; reflexivity].
  - apply Hp. eexists; reflexivity.
Defined.

Lemma search_flag_is_truthiness_witness :
  exists desc,
    search (R := Reference.runtime) (Sample.search_saw (Some "false"))
      Sample.document
    = Returned
        (mkResponse 200 (SearchBody "1700000000001" "Saw" desc true),
         Sample.document) /\
    desc = String "010"
             "Photo: http://localhost:3000/inventory/1700000000001/photo".
Proof.
  destruct (@search_flag_is_truthiness Reference.runtime Reference_laws
              (Sample.search_saw (Some "false")) Sample.document
              "1700000000001" 1 Sample.stored_saw
              sample_reachable eq_refl sample_first_saw
              (ex_intro _ _ eq_refl))
    as (desc & Hs & Hset & _).
  exists desc. split; [exact Hs |].
  rewrite (Hset "false"); [reflexivity | reflexivity | discriminate].
Defined.

(** ** Where the stated properties fail *)

(** C1 as stated fails: two registrations that read the same millisecond
    are both persisted under one id. *)
Lemma same_millisecond_ids_collide :
  exists rs d,
    stored Missing = [] /\
    serve [PostRegister Sample.drill 1700000000000;
           PostRegister Sample.saw 1700000000000] Missing
    = Returned (rs, d) /\
    ids (stored d) = ["1700000000000"; "1700000000000"] /\
    ~ NoDup (ids (stored d)).
Proof.
  do 2 eexists. split; [reflexivity |].
  split; [vm_compute; reflexivity |].
  split; [vm_compute; reflexivity |].
  intros H. apply (bool_decide_pack _) in H. vm_compute in H. exact H.
Qed.

(** C2 as stated fails: an update whose body carries the empty string as
    [name] persists an item with an empty name. *)
Lemma empty_name_update_is_persisted :
  exists rs d,
    stored Missing = [] /\
    serve [PostRegister Sample.drill 1700000000000;
           PutItem "1700000000000" Sample.empty_name] Missing
    = Returned (rs, d) /\
    stored d = [mkItem "1700000000000" "" "cordless" None] /\
    ~ Forall (fun x => name x <> "") (stored d).
Proof.
  do 2 eexists. split; [reflexivity |].
  split; [vm_compute; reflexivity |].
  split; [vm_compute; reflexivity |].
  intros H. apply (bool_decide_pack _) in H. vm_compute in H. exact H.
Qed.

(** C5 as stated fails: a body that provides [name] with the value null
    does not replace the stored name. *)
Lemma null_name_is_provided_but_kept :
  exists r d' item',
    first_match "1700000000001" (stored Sample.document) 1 Sample.stored_saw /\
    update "1700000000001" Sample.null_name Sample.document
    = Returned (r, d') /\
    stored d' !! 1 = Some item' /\
    provided (body_name Sample.null_name) /\
    JS.Str (name item') <> body_name Sample.null_name /\
    name item' = name Sample.stored_saw.
Proof.
  do 3 eexists. split; [exact sample_first_saw |].
  split; [vm_compute; reflexivity |].
  split; [vm_compute; reflexivity |].
  split; [discriminate |]. split; [discriminate | reflexivity].
Qed.

(** ** The further properties on the sample run *)

Lemma sample_ids_distinct : NoDup (ids (stored Sample.document)).
Proof.
  rewrite sample_run. apply (bool_decide_unpack _). vm_compute. exact I.
Qed.

Lemma sample_fresh_id :
  Forall (fun x => id x <> JS.Number_toString 1700000000005)
    (stored Sample.document).
Proof.
  rewrite sample_run. apply (bool_decide_unpack _). vm_compute. exact I.
Qed.

Lemma sample_saw_id : JS.Number_toString 1700000000001 = "1700000000001".
Proof. vm_compute. reflexivity. Qed.

Lemma padded_not_blank : ~ blank (Some " Drill ").
Proof. apply (bool_decide_unpack _). vm_compute. exact I. Qed.

Lemma delete_removes_first_match_witness :
  exists d',
    delete_item "1700000000000" Sample.document
    = Returned (mkResponse 200 (DeletedBody "Deleted" "1700000000000"), d') /\
    stored d' = [Sample.stored_saw].
Proof.
  destruct (proj1 (@delete_removes_first_match Reference.runtime
                     Reference_laws "1700000000000" Sample.document)
              0 Sample.stored_drill sample_first_drill)
    as (d' & Hdel & Hd & _).
  exists d'. split; [exact Hdel |]. rewrite Hd, sample_run. reflexivity.
Defined.

Lemma update_photo_sets_path_only_witness :
  exists d',
    update_photo Sample.origin "1700000000000" (Some (mkFile "77aa01"))
      Sample.document
    = Returned
        (mkResponse 200
           (PhotoUpdatedBody "Photo updated"
              (buildPhotoUrl Sample.origin "1700000000000")), d') /\
    stored d' !! 0
    = Some (mkItem "1700000000000" "Hammer drill" "cordless"
              (Some "/srv/cache/77aa01")) /\
    stored d' !! 1 = Some Sample.stored_saw.
Proof.
  destruct (proj2 (proj2 (@update_photo_sets_path_only Reference.runtime
                            Reference_laws Sample.origin "1700000000000"
                            Sample.document)
                     0 Sample.stored_drill sample_first_drill)
              (mkFile "77aa01"))
    as (d' & Hup & Hi & Ho & _).
  exists d'. split; [exact Hup |]. split; [exact Hi |].
  rewrite (Ho 1) by lia. rewrite sample_run. reflexivity.
Defined.

Lemma failures_leave_document_witness :
  (status not_found = 200%Z \/ status not_found = 201%Z \/
   is_error not_found) /\
  (is_error not_found -> Sample.document = Sample.document).
Proof.
  apply (@failures_leave_document Reference.runtime
           (DeleteItem "1600000000000") Sample.document Sample.document
           not_found).
  vm_compute. reflexivity.
Defined.

Lemma register_then_get_witness :
  exists r d',
    register Sample.padded 1700000000005 Sample.document = Returned (r, d') /\
    get_item Sample.origin (JS.Number_toString 1700000000005) d'
    = Returned
        (mkResponse 200
           (ItemBody
              {| view_id := JS.Number_toString 1700000000005;
                 view_name := " Drill ";
                 view_description := "";
                 photoUrl := None |}),
         d').
Proof.
  apply (@register_then_get Reference.runtime Reference_laws Sample.padded
           Sample.origin 1700000000005 Sample.document " Drill ").
  - reflexivity.
  - exact padded_not_blank.
  - exact sample_fresh_id.
Defined.

Lemma colliding_id_addresses_older_item_witness :
  exists r d' r0,
    register Sample.padded 1700000000001 Sample.document = Returned (r, d') /\
    length (stored d') = S (length (stored Sample.document)) /\
    first_match (JS.Number_toString 1700000000001) (stored d') 1
      Sample.stored_saw /\
    get_item Sample.origin (JS.Number_toString 1700000000001) Sample.document
    = Returned (r0, Sample.document) /\
    get_item Sample.origin (JS.Number_toString 1700000000001) d'
    = Returned (r0, d').
Proof.
  apply (@colliding_id_addresses_older_item Reference.runtime Reference_laws
           Sample.padded Sample.origin 1700000000001 Sample.document
           " Drill " 1 Sample.stored_saw).
  - reflexivity.
  - exact padded_not_blank.
  - rewrite sample_saw_id. exact sample_first_saw.
Defined.

Lemma register_then_delete_witness :
  exists r d',
    serve [PostRegister Sample.padded 1700000000005;
           DeleteItem (JS.Number_toString 1700000000005)] Sample.document
    = Returned
        ([r; mkResponse 200
               (DeletedBody "Deleted" (JS.Number_toString 1700000000005))],
         d') /\
    stored d' = stored Sample.document.
Proof.
  apply (@register_then_delete Reference.runtime Reference_laws
           Sample.padded 1700000000005 Sample.document " Drill ").
  - reflexivity.
  - exact padded_not_blank.
  - exact sample_fresh_id.
Defined.

Lemma update_idempotent_witness :
  exists r d1 d2,
    update "1700000000001" Sample.null_name Sample.document
    = Returned (r, d1) /\
    update "1700000000001" Sample.null_name d1 = Returned (r, d2) /\
    stored d2 = stored d1.
Proof.
  apply (@update_idempotent Reference.runtime Reference_laws).
Defined.

Lemma update_then_get_witness :
  exists n ds d' v,
    update "1700000000000" Sample.empty_name Sample.document
    = Returned
        (mkResponse 200 (UpdatedBody "Updated" "1700000000000" n ds), d') /\
    get_item Sample.origin "1700000000000" d'
    = Returned (mkResponse 200 (ItemBody v), d') /\
    view_id v = "1700000000000" /\ view_name v = n /\
    view_description v = ds.
Proof.
  apply (@update_then_get Reference.runtime Reference_laws "1700000000000"
           Sample.empty_name Sample.origin Sample.document 0
           Sample.stored_drill).
  exact sample_first_drill.
Defined.

Lemma delete_then_get_witness :
  exists d',
    delete_item "1700000000001" Sample.document
    = Returned (mkResponse 200 (DeletedBody "Deleted" "1700000000001"), d') /\
    get_item Sample.origin "1700000000001" d' = Returned (not_found, d').
Proof.
  apply (@delete_then_get Reference.runtime Reference_laws "1700000000001"
           Sample.origin Sample.document 1 Sample.stored_saw).
  - exact sample_ids_distinct.
  - exact sample_first_saw.
Defined.

Lemma ids_come_from_clock_witness :
  (forall x, x ∈ stored Sample.document ->
             exists t, t ∈ clock_readings Sample.calls /\
                       id x = JS.Number_toString t) /\
  length (stored Sample.document) <= length (clock_readings Sample.calls).
Proof.
  apply (@ids_come_from_clock Reference.runtime Reference_laws Missing
           Sample.document Sample.calls Sample.responses).
  - reflexivity.
  - exact sample_served.
Defined.


Lemma list_mirrors_collection_witness :
  exists entries,
    list_inventory Sample.origin Sample.document
    = Returned (mkResponse 200 (ListBody entries), Sample.document) /\
    length entries = length (stored Sample.document) /\
    forall i item,
      stored Sample.document !! i = Some item ->
      entries !! i
      = Some {| view_id := id item;
                view_name := name item;
                view_description := description item;
                photoUrl := expected_photoUrl Sample.origin item |}.
Proof.
  apply (@list_mirrors_collection Reference.runtime Reference_laws).
  exact sample_reachable.
Defined.

Lemma ensureCacheDir_keeps_collection_witness :
  exists d',
    @ensureCacheDir Missing = Returned (tt, d') /\
    @stored Fresh.runtime d' = @stored Fresh.runtime Missing /\
    (Missing = Missing -> d' = Text "[]") /\
    (Missing <> Missing -> d' = Missing) /\
    @ensureCacheDir d' = Returned (tt, d').
Proof.
  apply (@ensureCacheDir_keeps_collection Fresh.runtime Missing).
  reflexivity.
Defined.

Lemma get_photo_not_found_witness :
  get_photo ∅ "1700000000000" Sample.document
  = Returned (JsonResponse photo_not_found, Sample.document).
Proof.
  apply (proj2 (@get_photo_not_found Reference.runtime Reference_laws ∅
                  "1700000000000" Sample.document) sample_reachable).
  right. exists 0, Sample.stored_drill.
  split; [exact sample_first_drill | reflexivity].
Defined.

Lemma get_photo_serves_file_witness :
  get_photo {[ "/srv/cache/3f2a9c41" := "GIF89a" ]} "1700000000001"
    Sample.document
  = Returned (ImageResponse "image/jpeg" "inline" "GIF89a", Sample.document).
Proof.
  apply (proj1 (@get_photo_serves_file Reference.runtime Reference_laws
                  {[ "/srv/cache/3f2a9c41" := "GIF89a" ]} "1700000000001"
                  Sample.document 1 Sample.stored_saw "/srv/cache/3f2a9c41"
                  sample_reachable sample_first_saw eq_refl)).
  apply lookup_singleton_eq.
Defined.

Lemma replace_twice_serves_latest_witness :
  exists r1 r2 d',
    serve [PutPhoto Sample.origin "1700000000000" (Some (mkFile "77aa01"));
           PutPhoto Sample.origin "1700000000000" (Some (mkFile "77aa02"))]
      Sample.document
    = Returned ([r1; r2], d') /\
    get_photo {[ path (mkFile "77aa02") := "second" ]} "1700000000000" d'
    = Returned (ImageResponse "image/jpeg" "inline" "second", d').
Proof.
  apply (@replace_twice_serves_latest Reference.runtime Reference_laws
           {[ path (mkFile "77aa02") := "second" ]} Sample.origin
           "1700000000000" Sample.document 0 Sample.stored_drill
           (mkFile "77aa01") (mkFile "77aa02") "second").
  - exact sample_first_drill.
  - apply lookup_singleton_eq.
Defined.

Lemma search_not_found_iff_witness :
  search (mkSearchRequest Sample.origin (Some "1600000000000") None)
    Sample.document
  = Returned (not_found, Sample.document).
Proof.
  apply (proj1 (@search_not_found_iff Reference.runtime
                  (mkSearchRequest Sample.origin (Some "1600000000000") None)
                  Sample.document)).
  right. exists "1600000000000". split; [reflexivity |].
  rewrite sample_run. apply (bool_decide_unpack _). vm_compute. exact I.
Defined.
